(** * Cat tagline generator: the four-step pipeline and its error contract

    A shallow embedding of [cat_tagline_generator.py] (class
    [CatTaglineGenerator]) and of the way its callers read the result
    ([main] in the same file, [generate_cat_content] in
    [streamlit_app.py]).

    The program is a straight line of calls into collaborators: the image
    host ([requests.get]), Pillow ([Image.open], [image.save]), the
    generation API ([client.chat.completions.create]) and the process
    environment ([os.getenv]).  The collaborators are oracles of a [World];
    every call is recorded, in order, in a trace of [event]s, and a Python
    exception is an explicit [Raise] outcome that [try_except] may catch. *)

From Stdlib Require Import ZArith NArith List String Ascii Lia QArith.
From Stdlib.Strings Require Import Byte.
From stdpp Require Import base gmap strings.

Import ListNotations.
Local Open Scope string_scope.
Local Open Scope Z_scope.
Local Open Scope list_scope.

(** ** Python values *)

(** [bytes]: a sequence of octets. *)
Abbreviation bytes := (list byte).

(** A Python [str] is a Rocq [string], one character per code point; the
    strings of the model are those over the code points below 256, which is
    where every literal of the program lives. *)

(** The values stored in the result dictionary of [run_full_pipeline]. *)
Inductive value :=
| VStr (s : string)
| VBool (b : bool).

(** Truth value testing: [None], an empty [str], an empty [bytes] and
    [False] are false. *)
Definition truthy_str (s : string) : bool :=
  match s with EmptyString => false | String _ _ => true end.

Definition truthy_bytes (b : bytes) : bool :=
  match b with [] => false | _ :: _ => true end.

Definition truthy_opt {A} (tr : A -> bool) (o : option A) : bool :=
  match o with None => false | Some a => tr a end.

Definition truthy_value (v : value) : bool :=
  match v with VStr s => truthy_str s | VBool b => b end.

(** Line feed, the [\n] of the Python literals. *)
Definition LF : string := String "010"%char EmptyString.

(** ** Exceptions *)

(** What [requests.get] itself can raise; every one of them derives from
    [requests.RequestException]. *)
Inductive requests_error :=
| ConnectionError (msg : string)   (* DNS failure, refused connection *)
| Timeout                          (* the [timeout=10] ceiling was hit *)
| TooManyRedirects.

(** The exceptions of the model.  All of them derive from [Exception];
    what derives from [BaseException] only ([KeyboardInterrupt],
    [SystemExit]) ends the process and is not part of a pipeline run. *)
Inductive exn :=
| RequestException (r : requests_error)
| HTTPError (status : Z)           (* raised by [raise_for_status] *)
| UnidentifiedImageError           (* Pillow could not decode the bytes *)
| OSError (msg : string)           (* Pillow could not write the file *)
| OpenAIError (msg : string)       (* auth, rate limit, malformed response *)
| IndexError                       (* [choices[0]] on an empty list *)
| AttributeError                   (* [None.strip()] *)
| ValueError (msg : string).

(** [except requests.RequestException]: [HTTPError] is a subclass. *)
Definition is_RequestException (e : exn) : bool :=
  match e with
  | RequestException _ | HTTPError _ => true
  | _ => false
  end.

(** [except Exception]. *)
Definition is_Exception (e : exn) : bool := true.

(** ** Requests to the generation API *)

Inductive content_part :=
| TextPart (text : string)            (* {"type": "text", "text": ...} *)
| ImageUrlPart (url : string).        (* {"type": "image_url", "image_url": {"url": ...}} *)

Inductive message_content :=
| ContentText (s : string)
| ContentParts (parts : list content_part).

Record chat_message := {
  role : string;
  content : message_content
}.

Record ChatRequest := {
  model : string;
  messages : list chat_message;
  max_tokens : Z;
  temperature : option Q
}.

(** ** Collaborators, events and the world *)

(** The response of the image host: status code and body. *)
Record Response := {
  status_code : Z;
  resp_content : bytes
}.

Inductive http_outcome :=
| HttpResponse (r : Response)
| HttpRaises (e : requests_error).

(** A decoded Pillow image; it remembers the buffer it was opened from. *)
Record Image := { image_buffer : bytes }.

Inductive outcome (A : Type) :=
| Ret (a : A)
| Raise (e : exn).
Arguments Ret {A} a.
Arguments Raise {A} e.

(** A completion: the [message.content] of each of its [choices]; the
    content of a choice may be [None]. *)
Record ChatCompletion := { choices : list (option string) }.

(** The generation-API client built by [OpenAI(api_key=...)]. *)
Record OpenAI := { client_api_key : option string }.

(** What the program prints, by the statement that prints it. *)
Inductive log_line :=
| LogStarting
| LogFetched (n : nat)
| LogFetchError (e : exn)
| LogSaved (filename : string)
| LogSaveError (e : exn)
| LogDescription (d : option string)
| LogDescribeError (e : exn)
| LogTagline (t : string)
| LogTaglineError (e : exn).

Inductive event :=
| EvGet (url : string) (timeout : Z)
| EvImageOpen (data : bytes)
| EvImageSave (img : Image) (filename : string)
| EvChatCreate (client : OpenAI) (req : ChatRequest)
| EvPrint (l : log_line).

Abbreviation trace := (list event).

(** The world answers each call; an answer may depend on everything that
    happened before (the history), so two identical requests need not get
    the same answer.  [environ] is [os.environ] once [load_dotenv()] has
    run at import time. *)
Record World := {
  environ : gmap string string;
  requests_get : trace -> string -> Z -> http_outcome;
  Image_open : trace -> bytes -> outcome Image;
  Image_save : trace -> Image -> string -> outcome unit;
  chat_completions_create : trace -> OpenAI -> ChatRequest -> outcome ChatCompletion
}.

(** ** The monad of the embedding: world reader, trace writer, exceptions *)

Definition M (A : Type) : Type := World -> trace -> outcome A * trace.

Definition ret {A} (a : A) : M A := fun _ t => (Ret a, t).

Definition raise {A} (e : exn) : M A := fun _ t => (Raise e, t).

Definition bind {A B} (m : M A) (k : A -> M B) : M B :=
  fun w t =>
    match m w t with
    | (Ret a, t') => k a w t'
    | (Raise e, t') => (Raise e, t')
    end.

Notation "'let*' x ':=' c 'in' k" := (bind c (fun x => k))
  (at level 10, x pattern, c at level 100, k at level 200).
Notation "c ';;' k" := (bind c (fun _ => k))
  (at level 100, k at level 200, right associativity).

(** [try: body except <catches> as e: handler e]. *)
Definition try_except {A} (body : M A) (catches : exn -> bool) (handler : exn -> M A) : M A :=
  fun w t =>
    match body w t with
    | (Ret a, t') => (Ret a, t')
    | (Raise e, t') => if catches e then handler e w t' else (Raise e, t')
    end.

Definition emit (e : event) : M unit := fun _ t => (Ret tt, t ++ [e]).

Definition print (l : log_line) : M unit := emit (EvPrint l).

(** [os.getenv(name)]. *)
Definition os_getenv (name : string) : M (option string) :=
  fun w t => (Ret (environ w !! name), t).

(** [requests.get(url, timeout=timeout)]. *)
Definition requests_get_call (url : string) (timeout : Z) : M Response :=
  fun w t =>
    match requests_get w t url timeout with
    | HttpResponse r => (Ret r, t ++ [EvGet url timeout])
    | HttpRaises e => (Raise (RequestException e), t ++ [EvGet url timeout])
    end.

(** [response.raise_for_status()]: raises [HTTPError] for the 4xx and 5xx
    status codes, and for no other. *)
Definition raise_for_status (r : Response) : M unit :=
  if (400 <=? status_code r) && (status_code r <? 600)
  then raise (HTTPError (status_code r))
  else ret tt.

(** [Image.open(io.BytesIO(data))]. *)
Definition Image_open_call (data : bytes) : M Image :=
  fun w t => (Image_open w t data, t ++ [EvImageOpen data]).

(** [image.save(filename)]. *)
Definition Image_save_call (img : Image) (filename : string) : M unit :=
  fun w t => (Image_save w t img filename, t ++ [EvImageSave img filename]).

(** [client.chat.completions.create(...)]. *)
Definition chat_completions_create_call (client : OpenAI) (req : ChatRequest) : M ChatCompletion :=
  fun w t => (chat_completions_create w t client req, t ++ [EvChatCreate client req]).

(** ** Library functions the program calls *)

(** *** [base64.b64encode(data).decode('utf-8')]

    RFC 4648, standard alphabet: every group of three octets is a 24-bit
    number cut into four 6-bit digits; a last group of one or two octets is
    padded with zero bits and closed with [=]. *)

Definition b64_alphabet : string :=
  "ABCDEFGHIJKLMNOPQRSTUVWXYZabcdefghijklmnopqrstuvwxyz0123456789+/".

Definition b64_pad : ascii := "="%char.

Definition b64_char (i : N) : ascii :=
  match String.get (N.to_nat i) b64_alphabet with
  | Some c => c
  | None => b64_pad
  end.

(** The 24-bit group of three octets. *)
Definition b64_group (a b c : byte) : N :=
  (Byte.to_N a * 65536 + Byte.to_N b * 256 + Byte.to_N c)%N.

(** The four 6-bit digits of a group, most significant first. *)
Definition b64_digit (k : N) (n : N) : N := ((n / 64 ^ k) mod 64)%N.

Fixpoint b64encode (data : bytes) : string :=
  match data with
  | [] => EmptyString
  | [a] =>
      let n := b64_group a x00 x00 in
      String (b64_char (b64_digit 3 n)) (String (b64_char (b64_digit 2 n))
        (String b64_pad (String b64_pad EmptyString)))
  | [a; b] =>
      let n := b64_group a b x00 in
      String (b64_char (b64_digit 3 n)) (String (b64_char (b64_digit 2 n))
        (String (b64_char (b64_digit 1 n)) (String b64_pad EmptyString)))
  | a :: b :: c :: rest =>
      let n := b64_group a b c in
      String (b64_char (b64_digit 3 n)) (String (b64_char (b64_digit 2 n))
        (String (b64_char (b64_digit 1 n)) (String (b64_char (b64_digit 0 n))
          (b64encode rest))))
  end.

(** The inverse direction, [base64.b64decode] on padded input.  The program
    never calls it; it is here to state that the encoding loses nothing. *)
Fixpoint b64_index_from (i : N) (alphabet : string) (c : ascii) : option N :=
  match alphabet with
  | EmptyString => None
  | String d rest => if Ascii.eqb c d then Some i else b64_index_from (N.succ i) rest c
  end.

Definition b64_index (c : ascii) : option N := b64_index_from 0 b64_alphabet c.

Definition b64_octet (k : N) (n : N) : byte :=
  match Byte.of_N ((n / 256 ^ k) mod 256) with
  | Some b => b
  | None => x00
  end.

Fixpoint b64decode (s : string) : option bytes :=
  match s with
  | EmptyString => Some []
  | String c1 (String c2 (String c3 (String c4 rest))) =>
      match b64_index c1, b64_index c2 with
      | Some d3, Some d2 =>
          if Ascii.eqb c4 b64_pad then
            match rest with
            | EmptyString =>
                if Ascii.eqb c3 b64_pad then
                  let n := (d3 * 262144 + d2 * 4096)%N in
                  Some [b64_octet 2 n]
                else
                  match b64_index c3 with
                  | Some d1 =>
                      let n := (d3 * 262144 + d2 * 4096 + d1 * 64)%N in
                      Some [b64_octet 2 n; b64_octet 1 n]
                  | None => None
                  end
            | String _ _ => None
            end
          else
            match b64_index c3, b64_index c4, b64decode rest with
            | Some d1, Some d0, Some tail =>
                let n := (d3 * 262144 + d2 * 4096 + d1 * 64 + d0)%N in
                Some (b64_octet 2 n :: b64_octet 1 n :: b64_octet 0 n :: tail)
            | _, _, _ => None
            end
      | _, _ => None
      end
  | _ => None
  end.

(** *** [str.strip()]

    Without argument, [strip] removes the leading and trailing characters
    for which [str.isspace] holds; among the code points below 256 these
    are 9 to 13, 28 to 32, 133 and 160. *)

Definition py_isspace (c : ascii) : bool :=
  let n := N_of_ascii c in
  ((9 <=? n) && (n <=? 13) || (28 <=? n) && (n <=? 32) || (n =? 133) || (n =? 160))%N.

Fixpoint lstrip (s : string) : string :=
  match s with
  | EmptyString => EmptyString
  | String c rest => if py_isspace c then lstrip rest else s
  end.

Fixpoint rstrip (s : string) : string :=
  match s with
  | EmptyString => EmptyString
  | String c rest =>
      match rstrip rest with
      | EmptyString => if py_isspace c then EmptyString else String c EmptyString
      | kept => String c kept
      end
  end.

Definition strip (s : string) : string := rstrip (lstrip s).

(** ** The class [CatTaglineGenerator] *)

Record CatTaglineGenerator := {
  api_key : option string;
  client : OpenAI;
  cataas_base_url : string
}.

Definition missing_key_message : string :=
  "OPENAI_API_KEY is required. Provide it as a parameter or set the environment variable.".

(** [CatTaglineGenerator.__init__(self, api_key=None)]. *)
Definition __init__ (api_key : option string) : M CatTaglineGenerator :=
  let* self_api_key :=
    (if truthy_opt truthy_str api_key
     then ret api_key
     else os_getenv "OPENAI_API_KEY") in
  if negb (truthy_opt truthy_str self_api_key)
  then raise (ValueError missing_key_message)
  else ret {| api_key := self_api_key;
              client := {| client_api_key := self_api_key |};
              cataas_base_url := "https://cataas.com" |}.

(** [response.choices[0].message.content]. *)
Definition first_choice_content (response : ChatCompletion) : M (option string) :=
  match choices response with
  | [] => raise IndexError
  | c :: _ => ret c
  end.

(** [fetch_random_cat_image(self)]. *)
Definition fetch_random_cat_image (self : CatTaglineGenerator) : M (option bytes) :=
  try_except
    (let* response := requests_get_call (cataas_base_url self +:+ "/cat") 10 in
     raise_for_status response ;;
     print (LogFetched (length (resp_content response))) ;;
     ret (Some (resp_content response)))
    is_RequestException
    (fun e => print (LogFetchError e) ;; ret None).

Definition default_filename : string := "current_cat.jpg".

(** [save_image_locally(self, image_data, filename="current_cat.jpg")]. *)
Definition save_image_locally (self : CatTaglineGenerator)
    (image_data : bytes) (filename : string) : M string :=
  try_except
    (let* image := Image_open_call image_data in
     Image_save_call image filename ;;
     print (LogSaved filename) ;;
     ret filename)
    is_Exception
    (fun e => print (LogSaveError e) ;; raise e).

Definition describe_prompt : string :=
  "Please describe this cat image in detail. Focus on the cat's appearance, pose, expression, surroundings, and any notable or amusing features. Be descriptive but concise.".

(** The request built by [describe_image]. *)
Definition describe_request (image_data : bytes) : ChatRequest :=
  let base64_image := b64encode image_data in
  {| model := "gpt-4o-mini";
     messages :=
       [ {| role := "user";
            content := ContentParts
              [ TextPart describe_prompt;
                ImageUrlPart ("data:image/jpeg;base64," +:+ base64_image) ] |} ];
     max_tokens := 300;
     temperature := None |}.

(** [describe_image(self, image_data)]. *)
Definition describe_image (self : CatTaglineGenerator) (image_data : bytes) : M (option string) :=
  try_except
    (let* response := chat_completions_create_call (client self) (describe_request image_data) in
     let* description := first_choice_content response in
     print (LogDescription description) ;;
     ret description)
    is_Exception
    (fun e => print (LogDescribeError e) ;; ret None).

Definition tagline_persona : string :=
  "You are a witty copywriter who creates hilarious, clever taglines for cat photos. Your taglines should be punny, relatable, and capture the essence of internet cat humor. Keep them under 20 words and make them memorable.".

Definition tagline_task_head : string :=
  "Based on this cat image description, create a funny tagline:" +:+ LF +:+ LF.

Definition tagline_task_tail : string :=
  LF +:+ LF +:+ "Make it punny and internet-cat-meme worthy!".

(** The request built by [generate_funny_tagline]. *)
Definition tagline_request (image_description : string) : ChatRequest :=
  {| model := "gpt-4o-mini";
     messages :=
       [ {| role := "system"; content := ContentText tagline_persona |};
         {| role := "user";
            content := ContentText
              (tagline_task_head +:+ image_description +:+ tagline_task_tail) |} ];
     max_tokens := 100;
     temperature := Some (9 # 10)%Q |}.

(** [content.strip()] on the content of a choice: [None] has no [strip]. *)
Definition content_strip (content : option string) : M string :=
  match content with
  | Some s => ret (strip s)
  | None => raise AttributeError
  end.

(** [generate_funny_tagline(self, image_description)]. *)
Definition generate_funny_tagline (self : CatTaglineGenerator)
    (image_description : string) : M (option string) :=
  try_except
    (let* response := chat_completions_create_call (client self) (tagline_request image_description) in
     let* content := first_choice_content response in
     let* tagline := content_strip content in
     print (LogTagline tagline) ;;
     ret (Some tagline))
    is_Exception
    (fun e => print (LogTaglineError e) ;; ret None).

(** [if not x: return early] on an optional value: [None] and a falsy
    value take the early return, anything else goes on with the value. *)
Definition if_not {A B} (tr : A -> bool) (x : option A) (early : M B) (k : A -> M B) : M B :=
  match x with
  | Some a => if tr a then k a else early
  | None => early
  end.

(** [return {"error": msg}]. *)
Definition error_result (msg : string) : gmap string value := {[ "error" := VStr msg ]}.

(** [run_full_pipeline(self)]. *)
Definition run_full_pipeline (self : CatTaglineGenerator) : M (gmap string value) :=
  print LogStarting ;;
  let* image_data := fetch_random_cat_image self in
  if_not truthy_bytes image_data (ret (error_result "Failed to fetch cat image")) (fun image_data =>
  let* saved :=
    try_except
      (let* image_path := save_image_locally self image_data default_filename in
       ret (inr image_path))
      is_Exception
      (fun _ => ret (inl (error_result "Failed to save cat image"))) in
  match saved with
  | inl early => ret early
  | inr image_path =>
  let* description := describe_image self image_data in
  if_not truthy_str description (ret (error_result "Failed to describe cat image")) (fun description =>
  let* tagline := generate_funny_tagline self description in
  if_not truthy_str tagline (ret (error_result "Failed to generate tagline")) (fun tagline =>
  ret ({[ "image_path" := VStr image_path;
          "description" := VStr description;
          "tagline" := VStr tagline;
          "success" := VBool true ]} : gmap string value)))
  end).

(** ** How the callers read the result *)

(** [result.get("success")], tested for truth ([main] and
    [generate_cat_content]). *)
Definition result_success (result : gmap string value) : bool :=
  truthy_opt truthy_value (result !! "success").

(** [result.get("error", "Unknown error")] as [main] prints it. *)
Definition result_error (result : gmap string value) : value :=
  match result !! "error" with
  | Some v => v
  | None => VStr "Unknown error"
  end.

(** * The callers of the pipeline

    [main] of [cat_tagline_generator.py] (the command line) and the
    functions of [streamlit_app.py] (the web front end).  What they show is
    recorded beside the trace of the pipeline, in order, as a list of
    [ui_call]s; the two records are kept apart. *)

(** ** [str.strip(chars)] and [needle in hay] *)

(** The double quote character. *)
Definition DQUOTE : ascii := "034"%char.

Fixpoint char_in (c : ascii) (chars : string) : bool :=
  match chars with
  | EmptyString => false
  | String d rest => Ascii.eqb c d || char_in c rest
  end.

Fixpoint lstrip_chars (chars s : string) : string :=
  match s with
  | EmptyString => EmptyString
  | String c rest => if char_in c chars then lstrip_chars chars rest else s
  end.

Fixpoint rstrip_chars (chars s : string) : string :=
  match s with
  | EmptyString => EmptyString
  | String c rest =>
      match rstrip_chars chars rest with
      | EmptyString => if char_in c chars then EmptyString else String c EmptyString
      | kept => String c kept
      end
  end.

(** [s.strip(chars)]: drop the leading and the trailing characters that
    occur in [chars]. *)
Definition strip_chars (chars s : string) : string :=
  rstrip_chars chars (lstrip_chars chars s).

(** [needle in hay] on two [str]s. *)
Fixpoint str_contains (needle hay : string) : bool :=
  String.prefix needle hay ||
  match hay with
  | EmptyString => false
  | String _ rest => str_contains needle rest
  end.

(** ** Exceptions, collaborators and the monad of the callers *)

(** The callers can meet two exceptions more than the class. *)
Inductive caller_exn :=
| CoreExn (e : exn)
| KeyError (key : string)          (* [d[key]] on a missing key *)
| FileNotFoundError.               (* [st.secrets] without a secrets file *)

(** [except ValueError]. *)
Definition is_ValueError (e : caller_exn) : bool :=
  match e with
  | CoreExn (ValueError _) => true
  | _ => false
  end.

(** [except (KeyError, FileNotFoundError)]. *)
Definition is_KeyError_or_FileNotFoundError (e : caller_exn) : bool :=
  match e with
  | KeyError _ | FileNotFoundError => true
  | CoreExn _ => false
  end.

(** [except Exception] in a caller. *)
Definition is_caller_Exception (e : caller_exn) : bool := true.

(** The kinds of Streamlit element the front end writes. *)
Inductive st_kind :=
| st_markdown | st_error | st_info | st_success | st_warning | st_subheader | st_write.

(** The texts the front end shows, by the statement that shows them. *)
Inductive st_text :=
| TxtHeader                          (* the page title *)
| TxtSubtitle
| TxtSectionOpen                     (* opens the API-key box *)
| TxtSectionClose
| TxtSetKeyInEnv                     (* "Please set your OPENAI_API_KEY in the .env file" *)
| TxtCopyEnvExample
| TxtLocalKeyOk                      (* "Running locally with API key from .env file" *)
| TxtKeyRequired                     (* "OpenAI API Key Required" *)
| TxtEnterKeyBelow
| TxtPleaseEnterKey
| TxtKeyProvided                     (* "API key provided - ready to generate cat content!" *)
| TxtSecretsKeyOk                    (* "Running deployed with API key from Streamlit secrets" *)
| TxtGenerated                       (* "Generated new cat content!" *)
| TxtPipelineError (error_msg : value)   (* "Error: {error_msg}" *)
| TxtUnexpected (e : caller_exn)     (* "Unexpected error: {str(e)}" *)
| TxtTaglineHeader                   (* "Funny Tagline:" *)
| TxtTagline (shown : string)        (* the tagline between double quotes *)
| TxtNoTagline.                      (* "No tagline found in results!" *)

(** The lines [main] of the command line prints. *)
Inductive console_line :=
| ConRuleAfterBlank                  (* a blank line and fifty [=] *)
| ConRule                            (* fifty [=] *)
| ConSuccessTitle                    (* "SUCCESS! Here's your cat content:" *)
| ConImageSaved (image_path : value)
| ConDescription (description : value)
| ConTagline (tagline : value)
| ConPipelineFailed (error : value)
| ConConfigurationError (e : caller_exn)
| ConEnvHint                         (* "Make sure to set your OPENAI_API_KEY in a .env file" *)
| ConUnexpected (e : caller_exn)
| ConGenerateError (e : caller_exn). (* "Error in generate_cat_content: {e}" *)

Inductive ui_call :=
| St (kind : st_kind) (text : st_text)
| StTextInput                        (* the password field *)
| StColumns
| StButton
| StSpinner
| StImage (image : Image)
| OsPathExists (path : value)
| ImageOpenPath (path : value)
| Console (line : console_line).

(** The surroundings of a caller: the world of the pipeline, the secrets
    store ([None] when there is no secrets file), what the user typed into
    the password field, whether the button was pressed, and the file system
    as [display_results] sees it. *)
Record Frontend := {
  core : World;
  st_secrets : option (gmap string string);
  text_input_value : string;
  button_pressed : bool;
  path_exists : trace -> value -> bool;
  Image_open_path : trace -> value -> outcome Image
}.

Inductive caller_outcome (A : Type) :=
| Returns (a : A)
| Raises (e : caller_exn).
Arguments Returns {A} a.
Arguments Raises {A} e.

Definition F (A : Type) : Type :=
  Frontend -> trace -> list ui_call -> caller_outcome A * trace * list ui_call.

Definition f_ret {A} (a : A) : F A := fun _ t u => (Returns a, t, u).

Definition f_raise {A} (e : caller_exn) : F A := fun _ t u => (Raises e, t, u).

Definition f_bind {A B} (m : F A) (k : A -> F B) : F B :=
  fun f t u =>
    match m f t u with
    | (Returns a, t', u') => k a f t' u'
    | (Raises e, t', u') => (Raises e, t', u')
    end.

Notation "'let+' x ':=' c 'in' k" := (f_bind c (fun x => k))
  (at level 10, x pattern, c at level 100, k at level 200).
Notation "c ';;+' k" := (f_bind c (fun _ => k))
  (at level 100, k at level 200, right associativity).

(** [try: body except <clause> as e: ...]: the first clause that matches
    handles the exception; without one it goes on. *)
Fixpoint handle {A} (clauses : list ((caller_exn -> bool) * (caller_exn -> F A)))
    (e : caller_exn) : F A :=
  match clauses with
  | [] => f_raise e
  | (catches, handler) :: rest => if catches e then handler e else handle rest e
  end.

Definition f_try {A} (body : F A)
    (clauses : list ((caller_exn -> bool) * (caller_exn -> F A))) : F A :=
  fun f t u =>
    match body f t u with
    | (Returns a, t', u') => (Returns a, t', u')
    | (Raises e, t', u') => handle clauses e f t' u'
    end.

(** A step of the class, run in the world of the front end. *)
Definition lift {A} (m : M A) : F A :=
  fun f t u =>
    match m (core f) t with
    | (Ret a, t') => (Returns a, t', u)
    | (Raise e, t') => (Raises (CoreExn e), t', u)
    end.

Definition show (c : ui_call) : F unit := fun _ t u => (Returns tt, t, u ++ [c]).

Definition st (kind : st_kind) (text : st_text) : F unit := show (St kind text).

Definition console (line : console_line) : F unit := show (Console line).

(** [d[key]]. *)
Definition subscript (d : gmap string value) (key : string) : F value :=
  match d !! key with
  | Some v => f_ret v
  | None => f_raise (KeyError key)
  end.

(** [d.get(key, default)]. *)
Definition get_default (d : gmap string value) (key : string) (default : value) : value :=
  match d !! key with
  | Some v => v
  | None => default
  end.

(** [st.secrets[key]]. *)
Definition st_secrets_subscript (key : string) : F string :=
  fun f t u =>
    match st_secrets f with
    | None => (Raises FileNotFoundError, t, u)
    | Some store =>
        match store !! key with
        | Some v => (Returns v, t, u)
        | None => (Raises (KeyError key), t, u)
        end
    end.

(** [st.text_input(...)]. *)
Definition st_text_input : F string :=
  fun f t u => (Returns (text_input_value f), t, u ++ [StTextInput]).

(** [st.button(...)]. *)
Definition st_button : F bool :=
  fun f t u => (Returns (button_pressed f), t, u ++ [StButton]).

(** [os.path.exists(path)]. *)
Definition os_path_exists (path : value) : F bool :=
  fun f t u => (Returns (path_exists f t path), t, u ++ [OsPathExists path]).

(** [Image.open(path)]. *)
Definition Image_open_path_call (path : value) : F Image :=
  fun f t u =>
    match Image_open_path f t path with
    | Ret image => (Returns image, t, u ++ [ImageOpenPath path])
    | Raise e => (Raises (CoreExn e), t, u ++ [ImageOpenPath path])
    end.

(** [v.strip(chars)] on a value of the result: only a [str] has [strip]. *)
Definition value_strip (chars : string) (v : value) : F string :=
  match v with
  | VStr s => f_ret (strip_chars chars s)
  | VBool _ => f_raise (CoreExn AttributeError)
  end.

(** ** [cat_tagline_generator.main] *)

Module cli.

Definition main : F unit :=
  f_try
    (let+ generator := lift (__init__ None) in
     let+ result := lift (run_full_pipeline generator) in
     if truthy_opt truthy_value (result !! "success")
     then
       console ConRuleAfterBlank ;;+
       console ConSuccessTitle ;;+
       console ConRule ;;+
       let+ image_path := subscript result "image_path" in
       console (ConImageSaved image_path) ;;+
       let+ description := subscript result "description" in
       console (ConDescription description) ;;+
       let+ tagline := subscript result "tagline" in
       console (ConTagline tagline) ;;+
       console ConRule
     else
       console (ConPipelineFailed (get_default result "error" (VStr "Unknown error"))))
    [ (is_ValueError,
       fun e => console (ConConfigurationError e) ;;+ console ConEnvHint);
      (is_caller_Exception,
       fun e => console (ConUnexpected e)) ].

End cli.

(** ** [streamlit_app.py] *)

Module streamlit_app.

(** [is_running_locally()]. *)
Definition is_running_locally : F bool :=
  fun f t u =>
    let env := environ (core f) in
    (Returns
       (match env !! "STREAMLIT_SHARING_MODE" with None => true | Some _ => false end &&
        match env !! "STREAMLIT_SERVER_PORT" with None => true | Some _ => false end &&
        negb (str_contains "streamlit.io"
                (match env !! "STREAMLIT_SERVER_ADDRESS" with
                 | Some address => address
                 | None => EmptyString
                 end))),
     t, u).

(** [get_api_key()]. *)
Definition get_api_key : F (option string) :=
  let+ locally := is_running_locally in
  if locally
  then lift (os_getenv "OPENAI_API_KEY")
  else
    f_try
      (let+ key := st_secrets_subscript "OPENAI_API_KEY" in
       f_ret (Some key))
      [ (is_KeyError_or_FileNotFoundError, fun _ => f_ret None) ].

(** [display_results(result)]. *)
Definition display_results (result : gmap string value) : F unit :=
  let+ path := subscript result "image_path" in
  let+ there := os_path_exists path in
  (if there
   then
     let+ path := subscript result "image_path" in
     let+ image := Image_open_path_call path in
     show (StImage image)
   else f_ret tt) ;;+
  st st_subheader TxtTaglineHeader ;;+
  if match result !! "tagline" with
     | Some tagline => truthy_value tagline
     | None => false
     end
  then
    let+ tagline := subscript result "tagline" in
    let+ clean_tagline := value_strip (String DQUOTE EmptyString) tagline in
    st st_write (TxtTagline (String DQUOTE clean_tagline +:+ String DQUOTE EmptyString))
  else st st_error TxtNoTagline.

(** [generate_cat_content(api_key)]. *)
Definition generate_cat_content (api_key : option string) : F unit :=
  show StSpinner ;;+
  f_try
    (let+ generator := lift (__init__ api_key) in
     let+ result := lift (run_full_pipeline generator) in
     if truthy_opt truthy_value (result !! "success")
     then
       st st_success TxtGenerated ;;+
       display_results result
     else
       st st_error (TxtPipelineError (get_default result "error" (VStr "Unknown error occurred"))))
    [ (is_caller_Exception,
       fun e => st st_error (TxtUnexpected e) ;;+ console (ConGenerateError e)) ].

(** The API-key section of [main]: the key to go on with, or [None] where
    [main] returns. *)
Definition api_key_section : F (option (option string)) :=
  let+ api_key := get_api_key in
  let+ locally := is_running_locally in
  if locally
  then
    if negb (truthy_opt truthy_str api_key)
    then
      st st_markdown TxtSectionOpen ;;+
      st st_error TxtSetKeyInEnv ;;+
      st st_info TxtCopyEnvExample ;;+
      st st_markdown TxtSectionClose ;;+
      f_ret None
    else
      st st_success TxtLocalKeyOk ;;+
      f_ret (Some api_key)
  else
    if negb (truthy_opt truthy_str api_key)
    then
      st st_markdown TxtSectionOpen ;;+
      st st_warning TxtKeyRequired ;;+
      st st_info TxtEnterKeyBelow ;;+
      let+ user_provided_key := st_text_input in
      if negb (truthy_str user_provided_key)
      then
        st st_info TxtPleaseEnterKey ;;+
        st st_markdown TxtSectionClose ;;+
        f_ret None
      else
        st st_success TxtKeyProvided ;;+
        st st_markdown TxtSectionClose ;;+
        f_ret (Some (Some user_provided_key))
    else
      st st_success TxtSecretsKeyOk ;;+
      f_ret (Some api_key).

(** [main()]. *)
Definition main : F unit :=
  st st_markdown TxtHeader ;;+
  st st_markdown TxtSubtitle ;;+
  let+ section := api_key_section in
  match section with
  | None => f_ret tt
  | Some api_key =>
      show StColumns ;;+
      let+ pressed := st_button in
      if pressed then generate_cat_content api_key else f_ret tt
  end.

End streamlit_app.

(** * Vocabulary of the properties *)

(** The five dictionaries [run_full_pipeline] can return. *)
Inductive pipeline_result : gmap string value -> Prop :=
| result_fetch_failed : pipeline_result (error_result "Failed to fetch cat image")
| result_save_failed : pipeline_result (error_result "Failed to save cat image")
| result_describe_failed : pipeline_result (error_result "Failed to describe cat image")
| result_tagline_failed : pipeline_result (error_result "Failed to generate tagline")
| result_complete description tagline :
    truthy_str description = true ->
    truthy_str tagline = true ->
    pipeline_result
      {[ "image_path" := VStr default_filename;
         "description" := VStr description;
         "tagline" := VStr tagline;
         "success" := VBool true ]}.

(** A fully populated result, as [main] and the web front end read it. *)
Definition fully_populated (result : gmap string value) : Prop :=
  result_success result = true /\
  result !! "success" = Some (VBool true) /\
  (exists path, result !! "image_path" = Some (VStr path) /\ path <> "") /\
  (exists description, result !! "description" = Some (VStr description) /\ description <> "") /\
  (exists tagline, result !! "tagline" = Some (VStr tagline) /\ tagline <> "") /\
  result !! "error" = None.

(** A failed result: one error message and nothing else. *)
Definition failed_with_one_error (result : gmap string value) : Prop :=
  result_success result = false /\
  (exists msg, result = {[ "error" := VStr msg ]} /\ msg <> "") /\
  result !! "image_path" = None /\
  result !! "description" = None /\
  result !! "tagline" = None.

(** The requests that reached the generation API, in order. *)
Definition chat_requests (t : trace) : list ChatRequest :=
  flat_map (fun e => match e with EvChatCreate _ req => [req] | _ => [] end) t.

(** The calls into Pillow (the persist step), in order. *)
Definition persist_events (t : trace) : trace :=
  List.filter (fun e => match e with EvImageOpen _ | EvImageSave _ _ => true | _ => false end) t.

(** The GET requests that reached the image host, in order. *)
Definition get_requests (t : trace) : list (string * Z) :=
  flat_map (fun e => match e with EvGet url timeout => [(url, timeout)] | _ => [] end) t.

(** The image host did not deliver: a 4xx or 5xx status, or an error of the
    network layer (timeout, DNS failure, ...). *)
Definition fetch_fails (o : http_outcome) : Prop :=
  match o with
  | HttpResponse r => 400 <= status_code r < 600
  | HttpRaises _ => True
  end.

(** [needle] occurs in [hay]. *)
Definition occurs_in (needle hay : string) : Prop :=
  exists before after, hay = before +:+ needle +:+ after.

(** The data URLs a request carries. *)
Definition image_urls (req : ChatRequest) : list string :=
  flat_map (fun m =>
    match content m with
    | ContentText _ => []
    | ContentParts parts =>
        flat_map (fun p => match p with ImageUrlPart url => [url] | TextPart _ => [] end) parts
    end) (messages req).

(** Every character of [s] is white space. *)
Fixpoint all_space (s : string) : bool :=
  match s with
  | EmptyString => true
  | String c rest => py_isspace c && all_space rest
  end.

Definition first_char (s : string) : option ascii :=
  match s with EmptyString => None | String c _ => Some c end.

Fixpoint last_char (s : string) : option ascii :=
  match s with
  | EmptyString => None
  | String c EmptyString => Some c
  | String _ rest => last_char rest
  end.

(** [t] is [s] without its surrounding white space: [s] is [t] between two
    runs of white space, and [t] neither starts nor ends with white space. *)
Definition trimmed_of (s t : string) : Prop :=
  (exists before after,
     s = before +:+ t +:+ after /\ all_space before = true /\ all_space after = true) /\
  (forall c, first_char t = Some c -> py_isspace c = false) /\
  (forall c, last_char t = Some c -> py_isspace c = false).

(** The generator that [__init__] builds around the credential [key]. *)
Definition generator_for (key : string) : CatTaglineGenerator :=
  {| api_key := Some key;
     client := {| client_api_key := Some key |};
     cataas_base_url := "https://cataas.com" |}.

(** Digit [i] has its own character of the alphabet, and it is not the
    padding character. *)
Definition b64_char_ok (i : N) : bool :=
  match b64_index (b64_char i) with
  | Some j => N.eqb i j
  | None => false
  end && negb (Ascii.eqb (b64_char i) b64_pad).

(** The calls of a trace that reached a collaborator (everything but the
    prints), in order. *)
Definition collaborator_calls (t : trace) : trace :=
  List.filter (fun e => match e with EvPrint _ => false | _ => true end) t.

(** The ways a pipeline run can go: the dictionary it returns and the
    events it adds to the trace. *)
Inductive pipeline_run (self : CatTaglineGenerator) : gmap string value -> trace -> Prop :=
| outline_fetch_failed l :
    pipeline_run self (error_result "Failed to fetch cat image")
      [EvPrint LogStarting; EvGet (cataas_base_url self +:+ "/cat") 10; EvPrint l]
| outline_decode_failed data e :
    data <> [] ->
    pipeline_run self (error_result "Failed to save cat image")
      [EvPrint LogStarting; EvGet (cataas_base_url self +:+ "/cat") 10;
       EvPrint (LogFetched (length data));
       EvImageOpen data; EvPrint (LogSaveError e)]
| outline_write_failed data image e :
    data <> [] ->
    pipeline_run self (error_result "Failed to save cat image")
      [EvPrint LogStarting; EvGet (cataas_base_url self +:+ "/cat") 10;
       EvPrint (LogFetched (length data));
       EvImageOpen data; EvImageSave image default_filename; EvPrint (LogSaveError e)]
| outline_describe_failed data image l :
    data <> [] ->
    pipeline_run self (error_result "Failed to describe cat image")
      [EvPrint LogStarting; EvGet (cataas_base_url self +:+ "/cat") 10;
       EvPrint (LogFetched (length data));
       EvImageOpen data; EvImageSave image default_filename; EvPrint (LogSaved default_filename);
       EvChatCreate (client self) (describe_request data); EvPrint l]
| outline_tagline_failed data image description l :
    data <> [] ->
    description <> "" ->
    pipeline_run self (error_result "Failed to generate tagline")
      [EvPrint LogStarting; EvGet (cataas_base_url self +:+ "/cat") 10;
       EvPrint (LogFetched (length data));
       EvImageOpen data; EvImageSave image default_filename; EvPrint (LogSaved default_filename);
       EvChatCreate (client self) (describe_request data);
       EvPrint (LogDescription (Some description));
       EvChatCreate (client self) (tagline_request description); EvPrint l]
| outline_complete data image description out :
    data <> [] ->
    description <> "" ->
    strip out <> "" ->
    pipeline_run self
      {[ "image_path" := VStr default_filename;
         "description" := VStr description;
         "tagline" := VStr (strip out);
         "success" := VBool true ]}
      [EvPrint LogStarting; EvGet (cataas_base_url self +:+ "/cat") 10;
       EvPrint (LogFetched (length data));
       EvImageOpen data; EvImageSave image default_filename; EvPrint (LogSaved default_filename);
       EvChatCreate (client self) (describe_request data);
       EvPrint (LogDescription (Some description));
       EvChatCreate (client self) (tagline_request description);
       EvPrint (LogTagline (strip out))].

(** All five collaborator calls of a run, in the order the run makes them. *)
Definition all_calls (self : CatTaglineGenerator) (data : bytes) (image : Image)
    (description : string) : trace :=
  [EvGet (cataas_base_url self +:+ "/cat") 10;
   EvImageOpen data;
   EvImageSave image default_filename;
   EvChatCreate (client self) (describe_request data);
   EvChatCreate (client self) (tagline_request description)].

(** The success block of the command line. *)
Definition success_block (image_path description tagline : value) : list ui_call :=
  [Console ConRuleAfterBlank; Console ConSuccessTitle; Console ConRule;
   Console (ConImageSaved image_path);
   Console (ConDescription description);
   Console (ConTagline tagline);
   Console ConRule].

(** The three reports of the command line. *)
Inductive cli_report : list ui_call -> Prop :=
| report_configuration_error :
    cli_report [Console (ConConfigurationError (CoreExn (ValueError missing_key_message)));
                Console ConEnvHint]
| report_pipeline_failed msg :
    In msg ["Failed to fetch cat image"; "Failed to save cat image";
            "Failed to describe cat image"; "Failed to generate tagline"] ->
    cli_report [Console (ConPipelineFailed (VStr msg))]
| report_success description tagline :
    description <> "" ->
    tagline <> "" ->
    cli_report (success_block (VStr "current_cat.jpg") (VStr description) (VStr tagline)).

(** What [is_running_locally()] answers in the surroundings [f]. *)
Definition runs_locally (f : Frontend) : bool :=
  match streamlit_app.is_running_locally f [] [] with
  | (Returns b, _, _) => b
  | (Raises _, _, _) => false
  end.

(** The secret [st.secrets[key]], when there is a secrets file that holds
    it. *)
Definition secret (f : Frontend) (key : string) : option string :=
  match st_secrets f with
  | Some store => store !! key
  | None => None
  end.

(** The credential the web front end goes on with, in the order of its
    sources: locally the environment variable; deployed the secrets store,
    then what the user typed.  An empty value counts as none. *)
Definition resolved_key (f : Frontend) : option string :=
  if runs_locally f
  then
    match environ (core f) !! "OPENAI_API_KEY" with
    | Some key => if truthy_str key then Some key else None
    | None => None
    end
  else
    match secret f "OPENAI_API_KEY" with
    | Some key =>
        if truthy_str key then Some key
        else if truthy_str (text_input_value f) then Some (text_input_value f) else None
    | None =>
        if truthy_str (text_input_value f) then Some (text_input_value f) else None
    end.

(** The tagline as [display_results] writes it: between two double quotes,
    after the double quotes at its ends are removed. *)
Definition quoted (tagline : string) : string :=
  String DQUOTE (strip_chars (String DQUOTE EmptyString) tagline) +:+ String DQUOTE EmptyString.


(** What [display_results] shows for a complete result, by the state of the
    saved file. *)
Definition shown_results (f : Frontend) (t : trace) (image_path tagline : string)
    : list ui_call :=
  if path_exists f t (VStr image_path)
  then
    match Image_open_path f t (VStr image_path) with
    | Ret image =>
        [OsPathExists (VStr image_path); ImageOpenPath (VStr image_path); StImage image;
         St st_subheader TxtTaglineHeader; St st_write (TxtTagline (quoted tagline))]
    | Raise _ =>
        [OsPathExists (VStr image_path); ImageOpenPath (VStr image_path)]
    end
  else
    [OsPathExists (VStr image_path);
     St st_subheader TxtTaglineHeader; St st_write (TxtTagline (quoted tagline))].

(** What the API-key section of the web front end shows. *)
Definition key_section_shown (f : Frontend) : list ui_call :=
  if runs_locally f
  then
    if truthy_opt truthy_str (environ (core f) !! "OPENAI_API_KEY")
    then [St st_success TxtLocalKeyOk]
    else [St st_markdown TxtSectionOpen; St st_error TxtSetKeyInEnv;
          St st_info TxtCopyEnvExample; St st_markdown TxtSectionClose]
  else
    if truthy_opt truthy_str (secret f "OPENAI_API_KEY")
    then [St st_success TxtSecretsKeyOk]
    else
      [St st_markdown TxtSectionOpen; St st_warning TxtKeyRequired;
       St st_info TxtEnterKeyBelow; StTextInput] ++
      (if truthy_str (text_input_value f)
       then [St st_success TxtKeyProvided; St st_markdown TxtSectionClose]
       else [St st_info TxtPleaseEnterKey; St st_markdown TxtSectionClose]).

(** * Sample worlds *)

(** The generator [CatTaglineGenerator(api_key="sk-test")]. *)
Definition sample_generator : CatTaglineGenerator := generator_for "sk-test".

(** The first bytes of a JPEG file, of a PNG file and of a GIF file. *)
Definition jpeg_bytes : bytes := [xff; xd8; xff; xe0; x00; x10; x4a; x46; x49; x46].
Definition png_bytes : bytes := [x89; x50; x4e; x47; x0d; x0a; x1a; x0a].
Definition gif_bytes : bytes := [x47; x49; x46; x38; x39; x61].

(** 500 bytes that are no image. *)
Definition garbage_bytes : bytes := repeat x2a 500.

(** A stand-in for Pillow's decoder: it accepts the three signatures above. *)
Definition decodes (data : bytes) : bool :=
  match data with
  | xff :: xd8 :: xff :: _ => true
  | x89 :: x50 :: x4e :: x47 :: _ => true
  | x47 :: x49 :: x46 :: _ => true
  | _ => false
  end.

(** A world that answers the GET with [http], decodes as [decodes] does,
    always manages to write the file, and answers the first request to the
    generation API with [first] and every later one with [later]. *)
Definition scripted_world (env : gmap string string) (http : http_outcome)
    (first later : outcome ChatCompletion) : World :=
  {| environ := env;
     requests_get := fun _ _ _ => http;
     Image_open := fun _ data =>
       if decodes data then Ret {| image_buffer := data |} else Raise UnidentifiedImageError;
     Image_save := fun _ _ _ => Ret tt;
     chat_completions_create := fun t _ _ =>
       match chat_requests t with
       | [] => first
       | _ :: _ => later
       end |}.

Definition ok (body : bytes) : http_outcome :=
  HttpResponse {| status_code := 200; resp_content := body |}.

Definition says (text : string) : outcome ChatCompletion :=
  Ret {| choices := [Some text] |}.

Definition tabby : string := "A tabby cat mid-yawn on a windowsill".

(** Everything works. *)
Definition world_happy : World :=
  scripted_world ∅ (ok jpeg_bytes) (says tabby) (says "  Yawn and order!  ").

(** The image host answers 200 with 500 bytes of garbage. *)
Definition world_garbage : World :=
  scripted_world ∅ (ok garbage_bytes) (says tabby) (says "Meow").

(** The image host answers 200 with an empty body. *)
Definition world_empty_body : World :=
  scripted_world ∅ (ok []) (says tabby) (says "Meow").

(** The image host answers 404. *)
Definition world_404 : World :=
  scripted_world ∅ (HttpResponse {| status_code := 404; resp_content := [] |})
    (says tabby) (says "Meow").

(** The image host answers 300 (Multiple Choices) with a body. *)
Definition world_300 : World :=
  scripted_world ∅ (HttpResponse {| status_code := 300; resp_content := jpeg_bytes |})
    (says tabby) (says "Meow").

(** The request to the image host times out. *)
Definition world_timeout : World :=
  scripted_world ∅ (HttpRaises Timeout) (says tabby) (says "Meow").

(** The describe call answers with an empty text. *)
Definition world_blank_description : World :=
  scripted_world ∅ (ok jpeg_bytes) (says "") (says "Meow").

(** The describe call is refused by the generation API. *)
Definition world_describe_refused : World :=
  scripted_world ∅ (ok jpeg_bytes) (Raise (OpenAIError "rate limit")) (says "Meow").

(** Environments for the construction of the generator. *)
Definition world_with_env (env : gmap string string) : World :=
  scripted_world env (ok jpeg_bytes) (says tabby) (says "Meow").

(** The disk is full: Pillow decodes the image but cannot write it. *)
Definition world_disk_full : World :=
  {| environ := ∅;
     requests_get := fun _ _ _ => ok jpeg_bytes;
     Image_open := fun _ data => Ret {| image_buffer := data |};
     Image_save := fun _ _ _ => Raise (OSError "No space left on device");
     chat_completions_create := fun _ _ _ => says "Meow" |}.

(** The caption call answers with white space only. *)
Definition world_blank_caption : World :=
  scripted_world ∅ (ok jpeg_bytes) (says tabby) (says ("  " +:+ LF)).

(** The caption call is refused by the generation API. *)
Definition world_caption_refused : World :=
  scripted_world ∅ (ok jpeg_bytes) (says tabby) (Raise (OpenAIError "rate limit")).

(** A front end around the world [w]: no secrets file, nothing typed, the
    button pressed, the saved file in place and readable. *)
Definition frontend_of (w : World) : Frontend :=
  {| core := w;
     st_secrets := None;
     text_input_value := "";
     button_pressed := true;
     path_exists := fun _ _ => true;
     Image_open_path := fun _ _ => Ret {| image_buffer := jpeg_bytes |} |}.

(** The happy world with a credential in the environment. *)
Definition world_happy_with_key : World :=
  scripted_world {[ "OPENAI_API_KEY" := "sk-env" ]}
    (ok jpeg_bytes) (says tabby) (says "  Yawn and order!  ").

(** Deployed (the server port is set), no secrets file, the user typed a
    key; the environment holds another key. *)
Definition world_deployed : World :=
  scripted_world {[ "STREAMLIT_SERVER_PORT" := "8501"; "OPENAI_API_KEY" := "sk-env" ]}
    (ok jpeg_bytes) (says tabby) (says "  Yawn and order!  ").

Definition frontend_typed_key : Frontend :=
  {| core := world_deployed;
     st_secrets := None;
     text_input_value := "sk-typed";
     button_pressed := true;
     path_exists := fun _ _ => true;
     Image_open_path := fun _ _ => Ret {| image_buffer := jpeg_bytes |} |}.

(** Deployed, nothing typed yet. *)
Definition frontend_no_key : Frontend :=
  {| core := world_deployed;
     st_secrets := Some ∅;
     text_input_value := "";
     button_pressed := true;
     path_exists := fun _ _ => true;
     Image_open_path := fun _ _ => Ret {| image_buffer := jpeg_bytes |} |}.

(** The server port is set to the empty string. *)
Definition frontend_empty_port : Frontend :=
  frontend_of (scripted_world {[ "STREAMLIT_SERVER_PORT" := "" ]}
                 (ok jpeg_bytes) (says tabby) (says "Meow")).

(** The saved file cannot be read back. *)
Definition frontend_unreadable : Frontend :=
  {| core := world_happy;
     st_secrets := None;
     text_input_value := "";
     button_pressed := true;
     path_exists := fun _ _ => true;
     Image_open_path := fun _ _ => Raise UnidentifiedImageError |}.

(** The saved file is gone. *)
Definition frontend_missing_file : Frontend :=
  {| core := world_happy;
     st_secrets := None;
     text_input_value := "";
     button_pressed := true;
     path_exists := fun _ _ => false;
     Image_open_path := fun _ _ => Raise UnidentifiedImageError |}.

(** The model answers with a caption in double quotes. *)
Definition world_quoted_caption : World :=
  scripted_world ∅ (ok jpeg_bytes) (says tabby)
    (says (String DQUOTE "Yawn and order!" +:+ String DQUOTE EmptyString)).

(** * Tactics of the callers *)

Ltac unfold_caller :=
  unfold f_try, f_bind, lift, st, console, show, subscript, get_default, f_ret, f_raise in *.

(** * Properties *)

(** ** Unfolding the monad *)

Ltac unfold_monad :=
  unfold try_except, print, emit, if_not,
    requests_get_call, raise_for_status, Image_open_call, Image_save_call,
    chat_completions_create_call, first_choice_content, content_strip, os_getenv,
    bind, ret, raise in *.

Ltac norm_trace := simpl; rewrite <- ?app_assoc; simpl.

(** Name the quotients and remainders in the goal, innermost first, and
    keep their defining equations, so that [lia] sees linear facts only. *)
Ltac name_divmod :=
  repeat match goal with
  | |- context [N.div ?a ?b] =>
      lazymatch a with
      | context [N.div _ _] => fail
      | _ => idtac
      end;
      pose proof (N.div_mod' a b);
      pose proof (N.mod_lt a b ltac:(discriminate));
      generalize dependent (N.modulo a b);
      generalize dependent (N.div a b);
      intros
  | |- context [N.modulo ?a ?b] =>
      lazymatch a with
      | context [N.modulo _ _] => fail
      | _ => idtac
      end;
      pose proof (N.div_mod' a b);
      pose proof (N.mod_lt a b ltac:(discriminate));
      generalize dependent (N.modulo a b);
      generalize dependent (N.div a b);
      intros
  end.

Lemma fetch_random_cat_image_eq self w t :
  fetch_random_cat_image self w t =
  let url := cataas_base_url self +:+ "/cat" in
  match requests_get w t url 10 with
  | HttpResponse r =>
      if (400 <=? status_code r) && (status_code r <? 600)
      then (Ret None, t ++ [EvGet url 10; EvPrint (LogFetchError (HTTPError (status_code r)))])
      else (Ret (Some (resp_content r)),
            t ++ [EvGet url 10; EvPrint (LogFetched (length (resp_content r)))])
  | HttpRaises e =>
      (Ret None, t ++ [EvGet url 10; EvPrint (LogFetchError (RequestException e))])
  end.
Proof.
  unfold fetch_random_cat_image. unfold_monad. cbv zeta.
  destruct (requests_get w t _ 10) as [r|e]; [|by norm_trace].
  destruct ((400 <=? status_code r) && (status_code r <? 600)); by norm_trace.
Qed.

Lemma save_image_locally_eq self data filename w t :
  save_image_locally self data filename w t =
  match Image_open w t data with
  | Ret image =>
      match Image_save w (t ++ [EvImageOpen data]) image filename with
      | Ret _ => (Ret filename, t ++ [EvImageOpen data; EvImageSave image filename; EvPrint (LogSaved filename)])
      | Raise e => (Raise e, t ++ [EvImageOpen data; EvImageSave image filename; EvPrint (LogSaveError e)])
      end
  | Raise e => (Raise e, t ++ [EvImageOpen data; EvPrint (LogSaveError e)])
  end.
Proof.
  unfold save_image_locally. unfold_monad.
  destruct (Image_open w t data) as [image|e]; [|by norm_trace].
  destruct (Image_save w _ image filename) as [[]|e]; by norm_trace.
Qed.

Lemma describe_image_eq self data w t :
  describe_image self data w t =
  let req := describe_request data in
  match chat_completions_create w t (client self) req with
  | Ret {| choices := description :: _ |} =>
      (Ret description, t ++ [EvChatCreate (client self) req; EvPrint (LogDescription description)])
  | Ret {| choices := [] |} =>
      (Ret None, t ++ [EvChatCreate (client self) req; EvPrint (LogDescribeError IndexError)])
  | Raise e =>
      (Ret None, t ++ [EvChatCreate (client self) req; EvPrint (LogDescribeError e)])
  end.
Proof.
  unfold describe_image. unfold_monad. cbv zeta.
  destruct (chat_completions_create w t _ _) as [[[|d rest]]|e]; by norm_trace.
Qed.

Lemma generate_funny_tagline_eq self d w t :
  generate_funny_tagline self d w t =
  let req := tagline_request d in
  match chat_completions_create w t (client self) req with
  | Ret {| choices := Some out :: _ |} =>
      (Ret (Some (strip out)), t ++ [EvChatCreate (client self) req; EvPrint (LogTagline (strip out))])
  | Ret {| choices := None :: _ |} =>
      (Ret None, t ++ [EvChatCreate (client self) req; EvPrint (LogTaglineError AttributeError)])
  | Ret {| choices := [] |} =>
      (Ret None, t ++ [EvChatCreate (client self) req; EvPrint (LogTaglineError IndexError)])
  | Raise e =>
      (Ret None, t ++ [EvChatCreate (client self) req; EvPrint (LogTaglineError e)])
  end.
Proof.
  unfold generate_funny_tagline. unfold_monad. cbv zeta.
  destruct (chat_completions_create w t _ _) as [[[|[out|] rest]]|e]; by norm_trace.
Qed.

(** ** The result of a pipeline run *)

Lemma run_full_pipeline_returns self w t :
  exists result t',
    run_full_pipeline self w t = (Ret result, t') /\ pipeline_result result.
Proof.
  unfold run_full_pipeline.
  unfold bind at 1, print, emit. unfold bind at 1.
  rewrite fetch_random_cat_image_eq. cbv zeta.
  destruct (requests_get w _ _ 10) as [r|e]; simpl;
    [|eauto using pipeline_result].
  destruct ((400 <=? status_code r) && (status_code r <? 600)); simpl;
    [eauto using pipeline_result|].
  destruct (resp_content r) as [|b data] eqn:Hdata; simpl;
    [eauto using pipeline_result|].
  unfold bind at 1, try_except, bind at 1.
  rewrite save_image_locally_eq.
  destruct (Image_open w _ _) as [image|e]; simpl;
    [|eauto using pipeline_result].
  destruct (Image_save w _ image _) as [[]|e]; simpl;
    [|eauto using pipeline_result].
  unfold bind at 1. rewrite describe_image_eq. cbv zeta.
  destruct (chat_completions_create w _ _ (describe_request _)) as [[[|[d|] ?]]|e]; simpl;
    try (eauto using pipeline_result).
  destruct d as [|c d] ; simpl; [eauto using pipeline_result|].
  unfold bind at 1. rewrite generate_funny_tagline_eq. cbv zeta.
  destruct (chat_completions_create w _ _ (tagline_request _)) as [[[|[out|] ?]]|e]; simpl;
    try (eauto using pipeline_result).
  destruct (strip out) as [|c' tg] eqn:Hs; simpl; [eauto using pipeline_result|].
  do 2 eexists. split; [reflexivity|]. by constructor.
Qed.

Lemma truthy_str_nonempty s : truthy_str s = true -> s <> "".
Proof. by destruct s. Qed.

Lemma error_result_failed msg :
  msg <> "" -> failed_with_one_error (error_result msg).
Proof.
  intros Hmsg. repeat split; try done. by exists msg.
Qed.

Lemma error_result_inj msg1 msg2 : error_result msg1 = error_result msg2 -> msg1 = msg2.
Proof.
  intros Heq. apply (f_equal (fun m => m !! "error")) in Heq.
  unfold error_result in Heq. rewrite !lookup_singleton_eq in Heq. by injection Heq.
Qed.

Lemma pipeline_result_shape result :
  pipeline_result result -> fully_populated result \/ failed_with_one_error result.
Proof.
  destruct 1 as [| | | |d c Hd Hc].
  1-4: right; by apply error_result_failed.
  left. unfold fully_populated, result_success.
  repeat split; try done.
  - by exists default_filename.
  - exists d. split; [done|]. by apply truthy_str_nonempty.
  - exists c. split; [done|]. by apply truthy_str_nonempty.
Qed.

Lemma fully_populated_not_failed result :
  fully_populated result -> ~ failed_with_one_error result.
Proof.
  intros (Hs & _) (Hf & _). congruence.
Qed.

(** ** The steps of [run_full_pipeline], one at a time *)

Lemma run_after_fetch_none self w t t1 :
  fetch_random_cat_image self w (t ++ [EvPrint LogStarting]) = (Ret None, t1) ->
  run_full_pipeline self w t = (Ret (error_result "Failed to fetch cat image"), t1).
Proof.
  intros Hfetch. unfold run_full_pipeline.
  unfold bind at 1, print, emit. unfold bind at 1. by rewrite Hfetch.
Qed.

Lemma run_after_fetch_empty self w t t1 :
  fetch_random_cat_image self w (t ++ [EvPrint LogStarting]) = (Ret (Some []), t1) ->
  run_full_pipeline self w t = (Ret (error_result "Failed to fetch cat image"), t1).
Proof.
  intros Hfetch. unfold run_full_pipeline.
  unfold bind at 1, print, emit. unfold bind at 1. by rewrite Hfetch.
Qed.

Lemma run_after_save_raises self w t t1 data e t2 :
  fetch_random_cat_image self w (t ++ [EvPrint LogStarting]) = (Ret (Some data), t1) ->
  data <> [] ->
  save_image_locally self data default_filename w t1 = (Raise e, t2) ->
  run_full_pipeline self w t = (Ret (error_result "Failed to save cat image"), t2).
Proof.
  intros Hfetch Hdata Hsave. unfold run_full_pipeline.
  unfold bind at 1, print, emit. unfold bind at 1. rewrite Hfetch.
  destruct data as [|b data]; [done|]. simpl.
  unfold bind at 1, try_except, bind at 1. by rewrite Hsave.
Qed.

Lemma run_after_describe self w t t1 data path t2 :
  fetch_random_cat_image self w (t ++ [EvPrint LogStarting]) = (Ret (Some data), t1) ->
  data <> [] ->
  save_image_locally self data default_filename w t1 = (Ret path, t2) ->
  run_full_pipeline self w t =
  (let* description := describe_image self data in
   if_not truthy_str description (ret (error_result "Failed to describe cat image"))
     (fun description =>
        let* tagline := generate_funny_tagline self description in
        if_not truthy_str tagline (ret (error_result "Failed to generate tagline"))
          (fun tagline =>
             ret ({[ "image_path" := VStr path;
                     "description" := VStr description;
                     "tagline" := VStr tagline;
                     "success" := VBool true ]} : gmap string value)))) w t2.
Proof.
  intros Hfetch Hdata Hsave. unfold run_full_pipeline.
  unfold bind at 1, print, emit. unfold bind at 1. rewrite Hfetch.
  destruct data as [|b data]; [done|]. simpl.
  unfold bind at 1, try_except, bind at 1. by rewrite Hsave.
Qed.

(** ** What each step adds to the trace *)

Lemma chat_requests_app t1 t2 :
  chat_requests (t1 ++ t2) = chat_requests t1 ++ chat_requests t2.
Proof. unfold chat_requests. by rewrite flat_map_app. Qed.

Lemma fetch_random_cat_image_trace self w t o t' :
  fetch_random_cat_image self w t = (o, t') ->
  exists l, t' = t ++ [EvGet (cataas_base_url self +:+ "/cat") 10; EvPrint l].
Proof.
  rewrite fetch_random_cat_image_eq. cbv zeta.
  destruct (requests_get w t _ 10) as [r|e];
    [destruct ((400 <=? status_code r) && (status_code r <? 600))|];
    intros [= _ <-]; eauto.
Qed.

Lemma save_image_locally_trace self data filename w t path t' :
  save_image_locally self data filename w t = (Ret path, t') ->
  path = filename /\
  exists image,
    t' = t ++ [EvImageOpen data; EvImageSave image filename; EvPrint (LogSaved filename)].
Proof.
  rewrite save_image_locally_eq.
  destruct (Image_open w t data) as [image|e]; [|discriminate].
  destruct (Image_save w _ image filename) as [[]|e]; [|discriminate].
  intros [= <- <-]. eauto.
Qed.

Lemma describe_image_trace self data w t o t' :
  describe_image self data w t = (o, t') ->
  exists l, t' = t ++ [EvChatCreate (client self) (describe_request data); EvPrint l].
Proof.
  rewrite describe_image_eq. cbv zeta.
  destruct (chat_completions_create w t _ _) as [[[|d rest]]|e]; intros [= _ <-]; eauto.
Qed.

Lemma generate_funny_tagline_trace self d w t o t' :
  generate_funny_tagline self d w t = (o, t') ->
  exists l, t' = t ++ [EvChatCreate (client self) (tagline_request d); EvPrint l].
Proof.
  rewrite generate_funny_tagline_eq. cbv zeta.
  destruct (chat_completions_create w t _ _) as [[[|[out|] rest]]|e]; intros [= _ <-]; eauto.
Qed.

Lemma describe_request_not_tagline data d : tagline_request d <> describe_request data.
Proof. discriminate. Qed.

(** The trace of a run up to and including the describe step. *)
Lemma trace_through_describe self w t t1 data path t2 d t3 :
  fetch_random_cat_image self w (t ++ [EvPrint LogStarting]) = (Ret (Some data), t1) ->
  save_image_locally self data default_filename w t1 = (Ret path, t2) ->
  describe_image self data w t2 = (Ret d, t3) ->
  exists new, t3 = t ++ new /\ chat_requests new = [describe_request data].
Proof.
  intros Hfetch Hsave Hdescribe.
  apply fetch_random_cat_image_trace in Hfetch as [l1 ->].
  apply save_image_locally_trace in Hsave as [_ [image ->]].
  apply describe_image_trace in Hdescribe as [l3 ->].
  eexists. split; [by rewrite <- !app_assoc|]. reflexivity.
Qed.

(** ** Construction *)

Lemma truthy_str_true s : s <> "" -> truthy_str s = true.
Proof. by destruct s. Qed.

Lemma __init___explicit k w t :
  k <> "" -> __init__ (Some k) w t = (Ret (generator_for k), t).
Proof.
  intros Hk. unfold __init__. unfold_monad. simpl.
  rewrite (truthy_str_true k Hk). simpl. by rewrite (truthy_str_true k Hk).
Qed.

Lemma __init___fallback explicit w t :
  truthy_opt truthy_str explicit = false ->
  __init__ explicit w t =
  match environ w !! "OPENAI_API_KEY" with
  | Some v =>
      if truthy_str v
      then (Ret (generator_for v), t)
      else (Raise (ValueError missing_key_message), t)
  | None => (Raise (ValueError missing_key_message), t)
  end.
Proof.
  intros Hfalsy. unfold __init__. unfold_monad. rewrite Hfalsy.
  destruct (environ w !! "OPENAI_API_KEY") as [v|]; [|done]. simpl.
  by destruct (truthy_str v).
Qed.

(** ** [strip] removes the surrounding white space and nothing else *)

Lemma append_cons c (a b : string) : String c a +:+ b = String c (a +:+ b).
Proof. reflexivity. Qed.

Lemma append_nil (b : string) : "" +:+ b = b.
Proof. reflexivity. Qed.

Lemma lstrip_split s :
  exists before, s = before +:+ lstrip s /\ all_space before = true.
Proof.
  induction s as [|c s (before & Hs & Hbefore)]; [by exists ""|].
  simpl. destruct (py_isspace c) eqn:Hc.
  - exists (String c before). rewrite append_cons, <- Hs. simpl. by rewrite Hc, Hbefore.
  - by exists "".
Qed.

Lemma lstrip_first s c : first_char (lstrip s) = Some c -> py_isspace c = false.
Proof.
  induction s as [|x s IH]; [done|]. simpl.
  destruct (py_isspace x) eqn:Hx; [done|]. simpl. by intros [= <-].
Qed.

Lemma rstrip_split s :
  exists after, s = rstrip s +:+ after /\ all_space after = true.
Proof.
  induction s as [|c s (after & Hs & Hafter)]; [by exists ""|].
  simpl. destruct (rstrip s) as [|k kept] eqn:Hkept.
  - rewrite append_nil in Hs. subst after. destruct (py_isspace c) eqn:Hc.
    + exists (String c s). simpl. by rewrite Hc, Hafter.
    + by exists s.
  - exists after. by rewrite append_cons, <- Hs.
Qed.

Lemma rstrip_last s c : last_char (rstrip s) = Some c -> py_isspace c = false.
Proof.
  induction s as [|x s IH]; [done|]. simpl.
  destruct (rstrip s) as [|k kept] eqn:Hkept.
  - destruct (py_isspace x) eqn:Hx; [done|]. simpl. by intros [= <-].
  - simpl. exact IH.
Qed.

Lemma rstrip_first s c : first_char (rstrip s) = Some c -> first_char s = Some c.
Proof.
  destruct s as [|x s]; [done|]. simpl.
  destruct (rstrip s); [destruct (py_isspace x)|]; done.
Qed.

Lemma strip_trimmed s : trimmed_of s (strip s).
Proof.
  unfold trimmed_of, strip. split; [|split].
  - destruct (lstrip_split s) as (before & Hs & Hbefore).
    destruct (rstrip_split (lstrip s)) as (after & Hl & Hafter).
    exists before, after. split; [|done]. by rewrite <- Hl.
  - intros c Hc. apply rstrip_first in Hc. by apply (lstrip_first s).
  - intros c. apply rstrip_last.
Qed.

Example strip_example :
  strip (String "009" (" Yawn and order! " +:+ LF)) = "Yawn and order!".
Proof. reflexivity. Qed.

Example strip_keeps_inner_space : strip "  a  b  " = "a  b".
Proof. reflexivity. Qed.

Example strip_all_space : strip (" " +:+ LF +:+ " ") = "".
Proof. reflexivity. Qed.

(** ** Base64 loses nothing *)

Lemma bytes_ind3 (P : bytes -> Prop) :
  P [] ->
  (forall a, P [a]) ->
  (forall a b, P [a; b]) ->
  (forall a b c rest, P rest -> P (a :: b :: c :: rest)) ->
  forall data, P data.
Proof.
  intros Hnil Hone Htwo Hthree. fix IH 1.
  intros [|a [|b [|c rest]]]; [exact Hnil | apply Hone | apply Htwo |].
  apply Hthree, IH.
Qed.

Lemma b64_char_ok_all : forallb b64_char_ok (map N.of_nat (seq 0 64)) = true.
Proof. vm_compute. reflexivity. Qed.

Lemma b64_char_ok_lt i : (i < 64)%N -> b64_char_ok i = true.
Proof.
  intros Hi. apply (proj1 (forallb_forall _ _) b64_char_ok_all).
  apply in_map_iff. exists (N.to_nat i). split; [apply N2Nat.id|].
  apply in_seq. lia.
Qed.

Lemma b64_index_char i : (i < 64)%N -> b64_index (b64_char i) = Some i.
Proof.
  intros Hi. pose proof (b64_char_ok_lt i Hi) as Hok. unfold b64_char_ok in Hok.
  apply andb_true_iff in Hok as [Hok _].
  destruct (b64_index (b64_char i)) as [j|]; [|done].
  apply N.eqb_eq in Hok. by subst.
Qed.

Lemma b64_char_not_pad i : (i < 64)%N -> Ascii.eqb (b64_char i) b64_pad = false.
Proof.
  intros Hi. pose proof (b64_char_ok_lt i Hi) as Hok. unfold b64_char_ok in Hok.
  apply andb_true_iff in Hok as [_ Hok]. by apply negb_true_iff in Hok.
Qed.

Lemma b64_digit_lt k n : (b64_digit k n < 64)%N.
Proof. unfold b64_digit. apply N.mod_lt. done. Qed.

Lemma b64_octet_byte (k n : N) (b : byte) :
  ((n / 256 ^ k) mod 256 = Byte.to_N b)%N -> b64_octet k n = b.
Proof. unfold b64_octet. intros ->. by rewrite Byte.of_to_N. Qed.

Lemma div_4096 n : (n / 4096 = n / 64 / 64)%N.
Proof. by rewrite N.Div0.div_div. Qed.

Lemma div_262144 n : (n / 262144 = n / 64 / 64 / 64)%N.
Proof. by rewrite !N.Div0.div_div. Qed.

Lemma div_65536 n : (n / 65536 = n / 256 / 256)%N.
Proof. by rewrite N.Div0.div_div. Qed.

Lemma b64_digit_0 n : b64_digit 0 n = (n mod 64)%N.
Proof. unfold b64_digit. by rewrite N.div_1_r. Qed.

Lemma b64_digit_1 n : b64_digit 1 n = ((n / 64) mod 64)%N.
Proof. reflexivity. Qed.

Lemma b64_digit_2 n : b64_digit 2 n = ((n / 64 / 64) mod 64)%N.
Proof. unfold b64_digit. by rewrite <- div_4096. Qed.

Lemma b64_digit_3 n : b64_digit 3 n = ((n / 64 / 64 / 64) mod 64)%N.
Proof. unfold b64_digit. by rewrite <- div_262144. Qed.

Lemma b64_group_lt a b c : (b64_group a b c < 16777216)%N.
Proof.
  unfold b64_group.
  pose proof (Byte.to_N_bounded a). pose proof (Byte.to_N_bounded b).
  pose proof (Byte.to_N_bounded c). lia.
Qed.

(** The four digits of a 24-bit number give the number back. *)
Lemma b64_digits_number n :
  (n < 16777216)%N ->
  (b64_digit 3 n * 262144 + b64_digit 2 n * 4096 + b64_digit 1 n * 64 + b64_digit 0 n = n)%N.
Proof.
  intros Hn. rewrite b64_digit_3, b64_digit_2, b64_digit_1, b64_digit_0.
  revert Hn. name_divmod. lia.
Qed.

(** With the last octet zero, the last digit is zero; with the last two
    octets zero, so is the digit before. *)
Lemma b64_digit_0_two a b : b64_digit 0 (b64_group a b x00) = 0%N.
Proof.
  rewrite b64_digit_0. unfold b64_group. change (Byte.to_N x00) with 0%N.
  generalize (Byte.to_N a) (Byte.to_N b). intros x y. name_divmod. lia.
Qed.

Lemma b64_digit_1_one a : b64_digit 1 (b64_group a x00 x00) = 0%N.
Proof.
  rewrite b64_digit_1. unfold b64_group. change (Byte.to_N x00) with 0%N.
  generalize (Byte.to_N a). intros x. name_divmod. lia.
Qed.

(** The three octets of a group. *)
Lemma b64_octet_2_group a b c : b64_octet 2 (b64_group a b c) = a.
Proof.
  apply b64_octet_byte. change (256 ^ 2)%N with 65536%N. rewrite div_65536.
  unfold b64_group.
  pose proof (Byte.to_N_bounded a). pose proof (Byte.to_N_bounded b).
  pose proof (Byte.to_N_bounded c).
  generalize dependent (Byte.to_N c). generalize dependent (Byte.to_N b).
  generalize dependent (Byte.to_N a). intros x Hx y Hy z Hz. name_divmod. lia.
Qed.

Lemma b64_octet_1_group a b c : b64_octet 1 (b64_group a b c) = b.
Proof.
  apply b64_octet_byte. change (256 ^ 1)%N with 256%N.
  unfold b64_group.
  pose proof (Byte.to_N_bounded a). pose proof (Byte.to_N_bounded b).
  pose proof (Byte.to_N_bounded c).
  generalize dependent (Byte.to_N c). generalize dependent (Byte.to_N b).
  generalize dependent (Byte.to_N a). intros x Hx y Hy z Hz. name_divmod. lia.
Qed.

Lemma b64_octet_0_group a b c : b64_octet 0 (b64_group a b c) = c.
Proof.
  apply b64_octet_byte. change (256 ^ 0)%N with 1%N. rewrite N.div_1_r.
  unfold b64_group.
  pose proof (Byte.to_N_bounded a). pose proof (Byte.to_N_bounded b).
  pose proof (Byte.to_N_bounded c).
  generalize dependent (Byte.to_N c). generalize dependent (Byte.to_N b).
  generalize dependent (Byte.to_N a). intros x Hx y Hy z Hz. name_divmod. lia.
Qed.


Lemma b64decode_b64encode data : b64decode (b64encode data) = Some data.
Proof.
  induction data as [|a|a b|a b c rest IH] using bytes_ind3.
  - reflexivity.
  - cbn [b64encode b64decode].
    rewrite !b64_index_char by apply b64_digit_lt.
    rewrite !Ascii.eqb_refl.
    pose proof (b64_digits_number _ (b64_group_lt a x00 x00)) as Hn.
    rewrite b64_digit_1_one, b64_digit_0_two in Hn.
    replace (_ * 262144 + _ * 4096)%N with (b64_group a x00 x00) by lia.
    by rewrite b64_octet_2_group.
  - cbn [b64encode b64decode].
    rewrite !b64_index_char by apply b64_digit_lt.
    rewrite Ascii.eqb_refl, b64_char_not_pad by apply b64_digit_lt.
    pose proof (b64_digits_number _ (b64_group_lt a b x00)) as Hn.
    rewrite b64_digit_0_two in Hn.
    replace (_ * 262144 + _ * 4096 + _ * 64)%N with (b64_group a b x00) by lia.
    by rewrite b64_octet_2_group, b64_octet_1_group.
  - cbn [b64encode b64decode].
    rewrite !b64_index_char by apply b64_digit_lt.
    rewrite b64_char_not_pad by apply b64_digit_lt.
    rewrite IH.
    rewrite (b64_digits_number _ (b64_group_lt a b c)).
    by rewrite b64_octet_2_group, b64_octet_1_group, b64_octet_0_group.
Qed.

Lemma b64encode_injective data1 data2 :
  b64encode data1 = b64encode data2 -> data1 = data2.
Proof.
  intros Heq. apply (f_equal b64decode) in Heq.
  rewrite !b64decode_b64encode in Heq. by injection Heq.
Qed.

(** The test vectors of RFC 4648, section 10. *)
Example b64encode_rfc4648 :
  b64encode [] = "" /\
  b64encode [x66] = "Zg==" /\
  b64encode [x66; x6f] = "Zm8=" /\
  b64encode [x66; x6f; x6f] = "Zm9v" /\
  b64encode [x66; x6f; x6f; x62] = "Zm9vYg==" /\
  b64encode [x66; x6f; x6f; x62; x61] = "Zm9vYmE=" /\
  b64encode [x66; x6f; x6f; x62; x61; x72] = "Zm9vYmFy".
Proof. repeat split. Qed.

(** * Further properties *)

(** ** Every way a run can go *)

Lemma run_full_pipeline_outline self w t :
  exists result new,
    run_full_pipeline self w t = (Ret result, t ++ new) /\ pipeline_run self result new.
Proof.
  unfold run_full_pipeline.
  unfold bind at 1, print, emit. unfold bind at 1.
  rewrite fetch_random_cat_image_eq. cbv zeta.
  destruct (requests_get w _ _ 10) as [r|e]; simpl.
  2: { do 2 eexists. split; [by rewrite <- app_assoc|]. constructor. }
  destruct ((400 <=? status_code r) && (status_code r <? 600)); simpl.
  { do 2 eexists. split; [by rewrite <- app_assoc|]. constructor. }
  destruct (resp_content r) as [|b data] eqn:Hdata; simpl.
  { do 2 eexists. split; [by rewrite <- app_assoc|]. constructor. }
  unfold bind at 1, try_except, bind at 1.
  rewrite save_image_locally_eq.
  destruct (Image_open w _ _) as [image|e]; simpl.
  2: { do 2 eexists. split; [by rewrite <- !app_assoc|]. by apply (outline_decode_failed self (b :: data)). }
  destruct (Image_save w _ image _) as [[]|e]; simpl.
  2: { do 2 eexists. split; [by rewrite <- !app_assoc|]. by apply (outline_write_failed self (b :: data)). }
  unfold bind at 1. rewrite describe_image_eq. cbv zeta.
  destruct (chat_completions_create w _ _ (describe_request _)) as [[[|[d|] ?]]|e]; simpl.
  1,3,4: do 2 eexists; (split; [by rewrite <- !app_assoc|]);
         by apply (outline_describe_failed self (b :: data)).
  destruct d as [|c d]; simpl.
  { do 2 eexists. split; [by rewrite <- !app_assoc|]. by apply (outline_describe_failed self (b :: data)). }
  unfold bind at 1. rewrite generate_funny_tagline_eq. cbv zeta.
  destruct (chat_completions_create w _ _ (tagline_request _)) as [[[|[out|] ?]]|e]; simpl.
  1,3,4: do 2 eexists; (split; [by rewrite <- !app_assoc|]);
         by apply (outline_tagline_failed self (b :: data)).
  destruct (strip out) as [|c' tg] eqn:Hs; simpl.
  { do 2 eexists. split; [by rewrite <- !app_assoc|].
    by apply (outline_tagline_failed self (b :: data)). }
  do 2 eexists. split; [by rewrite <- !app_assoc|].
  rewrite <- Hs. apply (outline_complete self (b :: data)); try done. by rewrite Hs.
Qed.

(** ** The caption step failing, and the file written before it *)

Lemma collaborator_calls_app t1 t2 :
  collaborator_calls (t1 ++ t2) = collaborator_calls t1 ++ collaborator_calls t2.
Proof. unfold collaborator_calls. apply List.filter_app. Qed.

(** The trace of a run up to and including the caption step. *)
Lemma trace_through_tagline self w t t1 data path t2 d t3 o t4 :
  fetch_random_cat_image self w (t ++ [EvPrint LogStarting]) = (Ret (Some data), t1) ->
  save_image_locally self data default_filename w t1 = (Ret path, t2) ->
  describe_image self data w t2 = (Ret (Some d), t3) ->
  generate_funny_tagline self d w t3 = (o, t4) ->
  exists new image,
    t4 = t ++ new /\ collaborator_calls new = all_calls self data image d.
Proof.
  intros Hfetch Hsave Hdescribe Htagline.
  apply fetch_random_cat_image_trace in Hfetch as [l1 ->].
  apply save_image_locally_trace in Hsave as [_ [image ->]].
  apply describe_image_trace in Hdescribe as [l3 ->].
  apply generate_funny_tagline_trace in Htagline as [l4 ->].
  eexists. exists image. split; [by rewrite <- !app_assoc|]. reflexivity.
Qed.

Lemma all_space_strip s : all_space s = true <-> strip s = "".
Proof.
  unfold strip. split.
  - intros Hs. replace (lstrip s) with ""; [done|].
    induction s as [|c s IH]; [done|]. simpl in *.
    apply andb_true_iff in Hs as [-> Hs]. by apply IH.
  - intros Hs.
    destruct (lstrip_split s) as (before & Hsplit & Hbefore).
    destruct (rstrip_split (lstrip s)) as (after & Hl & Hafter).
    rewrite Hs, append_nil in Hl. rewrite Hl in Hsplit. rewrite Hsplit.
    clear - Hbefore Hafter. induction before as [|c before IH]; [done|].
    rewrite append_cons. simpl in *.
    apply andb_true_iff in Hbefore as [-> Hbefore]. by apply IH.
Qed.

(** ** The credential and the describe request *)

Lemma __init___returns explicit w t self t' :
  __init__ explicit w t = (Ret self, t') ->
  t' = t /\
  exists key,
    key <> "" /\ self = generator_for key /\
    (truthy_opt truthy_str explicit = true -> explicit = Some key) /\
    (truthy_opt truthy_str explicit = false -> environ w !! "OPENAI_API_KEY" = Some key).
Proof.
  destruct (truthy_opt truthy_str explicit) eqn:Hexplicit.
  - destruct explicit as [k|]; [|done]. simpl in Hexplicit.
    rewrite __init___explicit by (by apply truthy_str_nonempty).
    intros [= <- <-]. split; [done|]. exists k.
    split; [by apply truthy_str_nonempty|]. by repeat split.
  - rewrite __init___fallback by done.
    destruct (environ w !! "OPENAI_API_KEY") as [v|]; [|done].
    destruct (truthy_str v) eqn:Hv; [|done].
    intros [= <- <-]. split; [done|]. exists v.
    split; [by apply truthy_str_nonempty|]. by repeat split.
Qed.

Lemma append_inj_l (p a b : string) : p +:+ a = p +:+ b -> a = b.
Proof.
  induction p as [|c p IH]; [done|]. rewrite !append_cons. intros [= H]. by apply IH.
Qed.

Lemma length_append_str (a b : string) :
  String.length (a +:+ b) = (String.length a + String.length b)%nat.
Proof.
  induction a as [|c a IH]; [done|]. rewrite append_cons. simpl. by rewrite IH.
Qed.

Lemma b64encode_length data :
  String.length (b64encode data) = (4 * ((length data + 2) / 3))%nat.
Proof.
  induction data as [|a|a b|a b c rest IH] using bytes_ind3; try reflexivity.
  cbn [b64encode String.length length]. rewrite IH.
  replace (S (S (S (length rest))) + 2)%nat with (length rest + 2 + 1 * 3)%nat by lia.
  rewrite Nat.div_add by done. lia.
Qed.

(** ** The command line *)


Lemma complete_result_lookups (p d c : string) :
  let result : gmap string value :=
    {[ "image_path" := VStr p; "description" := VStr d;
       "tagline" := VStr c; "success" := VBool true ]} in
  result !! "success" = Some (VBool true) /\
  result !! "image_path" = Some (VStr p) /\
  result !! "description" = Some (VStr d) /\
  result !! "tagline" = Some (VStr c) /\
  result !! "error" = None.
Proof. done. Qed.

(** [main] once the generator is constructed and the pipeline has run. *)
Lemma cli_main_with_generator f t u key result t' :
  __init__ None (core f) t = (Ret (generator_for key), t) ->
  run_full_pipeline (generator_for key) (core f) t = (Ret result, t') ->
  pipeline_result result ->
  (exists description tagline,
     result = {[ "image_path" := VStr "current_cat.jpg";
                 "description" := VStr description;
                 "tagline" := VStr tagline;
                 "success" := VBool true ]} /\
     description <> "" /\ tagline <> "" /\
     cli.main f t u
       = (Returns tt, t',
          u ++ success_block (VStr "current_cat.jpg") (VStr description) (VStr tagline))) \/
  (exists msg,
     result = error_result msg /\
     In msg ["Failed to fetch cat image"; "Failed to save cat image";
             "Failed to describe cat image"; "Failed to generate tagline"] /\
     cli.main f t u = (Returns tt, t', u ++ [Console (ConPipelineFailed (VStr msg))])).
Proof.
  intros Hinit Hrun Hresult.
  destruct Hresult as [| | | |d c Hd Hc].
  1-4: right; eexists; split; [reflexivity|]; split; [simpl; tauto|];
       unfold cli.main, f_try, f_bind at 1, lift at 1; rewrite Hinit;
       unfold f_bind at 1, lift at 1; rewrite Hrun; reflexivity.
  left. exists d, c. split; [done|].
  split; [by apply truthy_str_nonempty|]. split; [by apply truthy_str_nonempty|].
  unfold cli.main, f_try, f_bind at 1, lift at 1. rewrite Hinit.
  unfold f_bind at 1, lift at 1. rewrite Hrun.
  destruct (complete_result_lookups default_filename d c) as (Hs & Hp & Hdesc & Htag & _).
  unfold_caller. rewrite Hs, Hp, Hdesc, Htag. simpl. by rewrite <- !app_assoc.
Qed.

(** ** The web front end *)

Lemma prefix_append (needle hay : string) :
  String.prefix needle hay = true <-> exists after, hay = needle +:+ after.
Proof.
  revert hay. induction needle as [|c needle IH]; intros hay.
  - split; [by exists hay|]. by destruct hay.
  - destruct hay as [|d hay]; simpl.
    + split; [done|]. by intros [after Hafter].
    + destruct (ascii_dec c d) as [->|Hne].
      * rewrite IH. split; intros [after Hafter]; exists after.
        -- by rewrite append_cons, <- Hafter.
        -- rewrite append_cons in Hafter. by injection Hafter.
      * split; [done|]. intros [after Hafter].
        rewrite append_cons in Hafter. by injection Hafter as -> _.
Qed.

Lemma str_contains_occurs_in (needle hay : string) :
  str_contains needle hay = true <-> occurs_in needle hay.
Proof.
  unfold occurs_in. induction hay as [|d hay IH].
  - cbn [str_contains]. rewrite orb_false_r, prefix_append. split.
    + intros [after Hafter]. by exists "", after.
    + intros ([|c before] & after & Hhay); [by exists after|]. by rewrite append_cons in Hhay.
  - cbn [str_contains]. rewrite orb_true_iff, IH, prefix_append. split.
    + intros [[after Hafter]|(before & after & Hhay)].
      * by exists "", after.
      * exists (String d before), after. by rewrite append_cons, <- Hhay.
    + intros ([|c before] & after & Hhay).
      * left. by exists after.
      * right. rewrite append_cons in Hhay. injection Hhay as _ Hhay. by exists before, after.
Qed.

Lemma is_running_locally_eq f t u :
  streamlit_app.is_running_locally f t u = (Returns (runs_locally f), t, u).
Proof. reflexivity. Qed.

Lemma runs_locally_iff f :
  runs_locally f = true <->
  environ (core f) !! "STREAMLIT_SHARING_MODE" = None /\
  environ (core f) !! "STREAMLIT_SERVER_PORT" = None /\
  forall address,
    environ (core f) !! "STREAMLIT_SERVER_ADDRESS" = Some address ->
    ~ occurs_in "streamlit.io" address.
Proof.
  unfold runs_locally, streamlit_app.is_running_locally. cbv zeta.
  rewrite !andb_true_iff, negb_true_iff.
  destruct (environ (core f) !! "STREAMLIT_SHARING_MODE");
    destruct (environ (core f) !! "STREAMLIT_SERVER_PORT");
    destruct (environ (core f) !! "STREAMLIT_SERVER_ADDRESS") as [address|];
    split; try (intros [[? ?] ?]; done); try (intros (? & ? & ?); done).
  - intros [_ Hno]. repeat split. intros ? [= <-] Hocc.
    apply str_contains_occurs_in in Hocc. congruence.
  - intros (_ & _ & Hno). repeat split.
    destruct (str_contains "streamlit.io" address) eqn:Hc; [|done].
    exfalso. apply (Hno address eq_refl). by apply str_contains_occurs_in.
Qed.

Lemma get_api_key_eq f t u :
  streamlit_app.get_api_key f t u
  = (Returns (if runs_locally f
              then environ (core f) !! "OPENAI_API_KEY"
              else secret f "OPENAI_API_KEY"), t, u).
Proof.
  unfold streamlit_app.get_api_key, f_bind. rewrite is_running_locally_eq.
  destruct (runs_locally f); [reflexivity|].
  unfold f_try, f_bind, st_secrets_subscript, secret.
  destruct (st_secrets f) as [store|]; [|reflexivity].
  by destruct (store !! "OPENAI_API_KEY").
Qed.

Lemma display_results_complete f t u (p d c : string) :
  c <> "" ->
  streamlit_app.display_results
    {[ "image_path" := VStr p; "description" := VStr d;
       "tagline" := VStr c; "success" := VBool true ]} f t u
  = (match path_exists f t (VStr p), Image_open_path f t (VStr p) with
     | true, Raise e => Raises (CoreExn e)
     | _, _ => Returns tt
     end, t, u ++ shown_results f t p c).
Proof.
  intros Hc. apply truthy_str_true in Hc.
  destruct (complete_result_lookups p d c) as (_ & Hp & _ & Htag & _).
  unfold streamlit_app.display_results, shown_results.
  unfold f_bind at 1, subscript at 1. rewrite Hp.
  unfold f_ret at 1, f_bind at 1, os_path_exists.
  destruct (path_exists f t (VStr p)).
  - unfold f_bind at 1, f_bind at 1, subscript at 1. rewrite Hp.
    unfold f_ret at 1, f_bind at 1, Image_open_path_call.
    destruct (Image_open_path f t (VStr p)) as [image|e]; [|by rewrite <- app_assoc].
    unfold_caller. rewrite Htag. simpl. rewrite Hc. unfold value_strip.
    by rewrite <- !app_assoc.
  - unfold_caller. rewrite Htag. simpl. rewrite Hc. unfold value_strip.
    by rewrite <- !app_assoc.
Qed.

Lemma error_result_lookups msg :
  error_result msg !! "success" = None /\ error_result msg !! "error" = Some (VStr msg).
Proof. done. Qed.

(** [generate_cat_content] once the pipeline has run. *)
Lemma generate_cat_content_after_init f t u api_key key result t' :
  __init__ api_key (core f) t = (Ret (generator_for key), t) ->
  run_full_pipeline (generator_for key) (core f) t = (Ret result, t') ->
  pipeline_result result ->
  (exists description tagline,
     result = {[ "image_path" := VStr "current_cat.jpg";
                 "description" := VStr description;
                 "tagline" := VStr tagline;
                 "success" := VBool true ]} /\
     description <> "" /\ tagline <> "" /\
     streamlit_app.generate_cat_content api_key f t u
       = (Returns tt, t',
          u ++ [StSpinner; St st_success TxtGenerated]
            ++ shown_results f t' "current_cat.jpg" tagline
            ++ match path_exists f t' (VStr "current_cat.jpg"),
                     Image_open_path f t' (VStr "current_cat.jpg") with
               | true, Raise e =>
                   [St st_error (TxtUnexpected (CoreExn e));
                    Console (ConGenerateError (CoreExn e))]
               | _, _ => []
               end)) \/
  (exists msg,
     result = error_result msg /\
     In msg ["Failed to fetch cat image"; "Failed to save cat image";
             "Failed to describe cat image"; "Failed to generate tagline"] /\
     streamlit_app.generate_cat_content api_key f t u
       = (Returns tt, t', u ++ [StSpinner; St st_error (TxtPipelineError (VStr msg))])).
Proof.
  intros Hinit Hrun Hresult.
  destruct Hresult as [| | | |d c Hd Hc].
  1-4: right; eexists; split; [reflexivity|]; split; [simpl; tauto|];
       unfold streamlit_app.generate_cat_content, f_bind at 1, show at 1, f_try,
         f_bind at 1, lift at 1;
       rewrite Hinit;
       unfold f_bind at 1, lift at 1; rewrite Hrun;
       unfold_caller;
       rewrite (proj1 (error_result_lookups _)), (proj2 (error_result_lookups _));
       simpl; by rewrite <- ?app_assoc.
  left. exists d, c. split; [done|].
  split; [by apply truthy_str_nonempty|]. split; [by apply truthy_str_nonempty|].
  unfold streamlit_app.generate_cat_content, f_bind at 1, show at 1, f_try,
    f_bind at 1, lift at 1.
  rewrite Hinit.
  unfold f_bind at 1, lift at 1. rewrite Hrun.
  destruct (complete_result_lookups default_filename d c) as (Hs & _).
  rewrite Hs. cbn [truthy_opt truthy_value].
  unfold f_bind at 1, st at 1, show at 1.
  rewrite display_results_complete by (by apply truthy_str_nonempty).
  change default_filename with "current_cat.jpg".
  destruct (path_exists f t' (VStr "current_cat.jpg")) eqn:Hexists;
    [destruct (Image_open_path f t' (VStr "current_cat.jpg")) as [image|e] eqn:Hopen|];
    unfold_caller; simpl; rewrite <- ?app_assoc; simpl; by rewrite ?app_nil_r.
Qed.

Lemma generate_cat_content_with_key f t u key result t' :
  key <> "" ->
  run_full_pipeline (generator_for key) (core f) t = (Ret result, t') ->
  pipeline_result result ->
  (exists description tagline,
     result = {[ "image_path" := VStr "current_cat.jpg";
                 "description" := VStr description;
                 "tagline" := VStr tagline;
                 "success" := VBool true ]} /\
     description <> "" /\ tagline <> "" /\
     streamlit_app.generate_cat_content (Some key) f t u
       = (Returns tt, t',
          u ++ [StSpinner; St st_success TxtGenerated]
            ++ shown_results f t' "current_cat.jpg" tagline
            ++ match path_exists f t' (VStr "current_cat.jpg"),
                     Image_open_path f t' (VStr "current_cat.jpg") with
               | true, Raise e =>
                   [St st_error (TxtUnexpected (CoreExn e));
                    Console (ConGenerateError (CoreExn e))]
               | _, _ => []
               end)) \/
  (exists msg,
     result = error_result msg /\
     In msg ["Failed to fetch cat image"; "Failed to save cat image";
             "Failed to describe cat image"; "Failed to generate tagline"] /\
     streamlit_app.generate_cat_content (Some key) f t u
       = (Returns tt, t', u ++ [StSpinner; St st_error (TxtPipelineError (VStr msg))])).
Proof.
  intros Hkey. apply generate_cat_content_after_init. by apply __init___explicit.
Qed.

Lemma generate_cat_content_init_raises f t u api_key e :
  __init__ api_key (core f) t = (Raise e, t) ->
  streamlit_app.generate_cat_content api_key f t u
  = (Returns tt, t,
     u ++ [StSpinner; St st_error (TxtUnexpected (CoreExn e));
           Console (ConGenerateError (CoreExn e))]).
Proof.
  intros Hinit.
  unfold streamlit_app.generate_cat_content, f_bind at 1, show at 1, f_try,
    f_bind at 1, lift at 1.
  rewrite Hinit. unfold_caller. simpl. by rewrite <- !app_assoc.
Qed.


Lemma api_key_section_eq f t u :
  streamlit_app.api_key_section f t u
  = (Returns (match resolved_key f with
              | Some key => Some (Some key)
              | None => None
              end), t, u ++ key_section_shown f).
Proof.
  unfold streamlit_app.api_key_section, f_bind at 1. rewrite get_api_key_eq.
  unfold f_bind at 1. rewrite is_running_locally_eq.
  unfold resolved_key, key_section_shown.
  destruct (runs_locally f).
  - destruct (environ (core f) !! "OPENAI_API_KEY") as [[|c key]|];
      unfold_caller; simpl; by rewrite <- ?app_assoc.
  - destruct (secret f "OPENAI_API_KEY") as [[|c key]|];
      try (unfold_caller; simpl; by rewrite <- ?app_assoc).
    all: cbn [truthy_opt truthy_str negb];
      unfold f_bind at 1, st at 1, show at 1, f_bind at 1, st at 1, show at 1,
        f_bind at 1, st at 1, show at 1, f_bind at 1, st_text_input;
      destruct (text_input_value f) as [|c' typed];
      unfold_caller; simpl; by rewrite <- ?app_assoc.
Qed.

Lemma web_main_eq f t u :
  streamlit_app.main f t u
  = match resolved_key f with
    | None =>
        (Returns tt, t,
         u ++ [St st_markdown TxtHeader; St st_markdown TxtSubtitle] ++ key_section_shown f)
    | Some key =>
        if button_pressed f
        then
          streamlit_app.generate_cat_content (Some key) f t
            (u ++ [St st_markdown TxtHeader; St st_markdown TxtSubtitle]
               ++ key_section_shown f ++ [StColumns; StButton])
        else
          (Returns tt, t,
           u ++ [St st_markdown TxtHeader; St st_markdown TxtSubtitle]
             ++ key_section_shown f ++ [StColumns; StButton])
    end.
Proof.
  unfold streamlit_app.main.
  unfold f_bind at 1, st at 1, show at 1, f_bind at 1, st at 1, show at 1, f_bind at 1.
  rewrite api_key_section_eq.
  destruct (resolved_key f) as [key|].
  - unfold f_bind at 1, show at 1, f_bind at 1, st_button.
    replace (((((u ++ [St st_markdown TxtHeader]) ++ [St st_markdown TxtSubtitle])
                ++ key_section_shown f) ++ [StColumns]) ++ [StButton])
      with (u ++ [St st_markdown TxtHeader; St st_markdown TxtSubtitle]
              ++ key_section_shown f ++ [StColumns; StButton])
      by (by rewrite <- !app_assoc).
    by destruct (button_pressed f).
  - unfold f_ret. by rewrite <- !app_assoc.
Qed.

Lemma resolved_key_nonempty f key : resolved_key f = Some key -> key <> "".
Proof.
  unfold resolved_key.
  destruct (runs_locally f).
  - destruct (environ (core f) !! "OPENAI_API_KEY") as [k|]; [|done].
    destruct (truthy_str k) eqn:Hk; [|done]. intros [= <-]. by apply truthy_str_nonempty.
  - destruct (secret f "OPENAI_API_KEY") as [k|].
    + destruct (truthy_str k) eqn:Hk.
      * intros [= <-]. by apply truthy_str_nonempty.
      * destruct (truthy_str (text_input_value f)) eqn:Hi; [|done].
        intros [= <-]. by apply truthy_str_nonempty.
    + destruct (truthy_str (text_input_value f)) eqn:Hi; [|done].
      intros [= <-]. by apply truthy_str_nonempty.
Qed.

Lemma generate_cat_content_returns f t u key :
  key <> "" ->
  exists u',
    streamlit_app.generate_cat_content (Some key) f t u
    = (Returns tt, snd (run_full_pipeline (generator_for key) (core f) t), u').
Proof.
  intros Hkey.
  destruct (run_full_pipeline_returns (generator_for key) (core f) t)
    as (result & t' & Hrun & Hresult).
  destruct (generate_cat_content_with_key f t u key result t' Hkey Hrun Hresult)
    as [(d & c & _ & _ & _ & ->)|(msg & _ & _ & ->)]; rewrite Hrun; eauto.
Qed.

(** ** [strip(chars)] *)















Lemma complete_result_inj (p d c p' d' c' : string) :
  ({[ "image_path" := VStr p; "description" := VStr d;
      "tagline" := VStr c; "success" := VBool true ]} : gmap string value)
  = {[ "image_path" := VStr p'; "description" := VStr d';
       "tagline" := VStr c'; "success" := VBool true ]} ->
  p = p' /\ d = d' /\ c = c'.
Proof.
  intros Heq.
  destruct (complete_result_lookups p d c) as (_ & Hp & Hd & Hc & _).
  destruct (complete_result_lookups p' d' c') as (_ & Hp' & Hd' & Hc' & _).
  cbv zeta in *. rewrite Heq in Hp, Hd, Hc.
  rewrite Hp' in Hp. rewrite Hd' in Hd. rewrite Hc' in Hc.
  by injection Hp as ->; injection Hd as ->; injection Hc as ->.
Qed.

Lemma complete_result_not_error (p d c msg : string) :
  ({[ "image_path" := VStr p; "description" := VStr d;
      "tagline" := VStr c; "success" := VBool true ]} : gmap string value)
  <> error_result msg.
Proof.
  intros Heq. apply (f_equal (fun m => m !! "success")) in Heq.
  rewrite (proj1 (complete_result_lookups p d c)) in Heq.
  by rewrite (proj1 (error_result_lookups msg)) in Heq.
Qed.

Lemma __init___raises explicit w t e t0 :
  __init__ explicit w t = (Raise e, t0) -> t0 = t /\ e = ValueError missing_key_message.
Proof.
  destruct (truthy_opt truthy_str explicit) eqn:Hexplicit.
  - destruct explicit as [k|]; [|done]. simpl in Hexplicit.
    by rewrite __init___explicit by (by apply truthy_str_nonempty).
  - rewrite __init___fallback by done.
    destruct (environ w !! "OPENAI_API_KEY") as [v|]; [destruct (truthy_str v)|];
      try done; by intros [= <- <-].
Qed.


(** C1. Every pipeline run returns a dictionary (no exception escapes), and
    the dictionary is either fully populated (the success flag reads true;
    image path, description and tagline are all present and non-empty; there
    is no error field) or failed (the success flag reads false, the
    dictionary is exactly one error message, there is no content field);
    never both. *)
Theorem run_full_pipeline_all_or_error (self : CatTaglineGenerator) (w : World) (t : trace) :
  exists result t',
    run_full_pipeline self w t = (Ret result, t') /\
    (fully_populated result \/ failed_with_one_error result) /\
    ~ (fully_populated result /\ failed_with_one_error result).
Proof.
  destruct (run_full_pipeline_returns self w t) as (result & t' & Hrun & Hres).
  exists result, t'. split; [exact Hrun|]. split.
  - by apply pipeline_result_shape.
  - intros [Hfull Hfail]. by apply (fully_populated_not_failed result).
Qed.

Example run_complete :
  fst (run_full_pipeline sample_generator world_happy [])
    = Ret {[ "image_path" := VStr "current_cat.jpg";
             "description" := VStr "A tabby cat mid-yawn on a windowsill";
             "tagline" := VStr "Yawn and order!";
             "success" := VBool true ]}.
Proof. reflexivity. Qed.

Example run_fetch_failed :
  fst (run_full_pipeline sample_generator world_timeout [])
    = Ret {[ "error" := VStr "Failed to fetch cat image" ]}.
Proof. reflexivity. Qed.

(** C2 (amended). Bytes that Pillow cannot decode make [save_image_locally]
    raise the decoder's exception (after reporting it), for every file name;
    it returns no value at all.  When the fetch step of a pipeline run has
    yielded such bytes and they are not empty, [run_full_pipeline] returns
    exactly [{"error": "Failed to save cat image"}], whose success flag reads
    false and which is none of the results of a failed fetch, describe or
    caption call; nothing is attempted after the failed decode. *)
Theorem undecodable_bytes_fail_the_save
    (self : CatTaglineGenerator) (w : World) (t : trace)
    (data : bytes) (filename : string) (e : exn) :
  Image_open w t data = Raise e ->
  save_image_locally self data filename w t
    = (Raise e, t ++ [EvImageOpen data; EvPrint (LogSaveError e)]) /\
  (forall t0,
     fetch_random_cat_image self w (t0 ++ [EvPrint LogStarting]) = (Ret (Some data), t) ->
     data <> [] ->
     run_full_pipeline self w t0
       = (Ret (error_result "Failed to save cat image"),
          t ++ [EvImageOpen data; EvPrint (LogSaveError e)]) /\
     result_success (error_result "Failed to save cat image") = false /\
     failed_with_one_error (error_result "Failed to save cat image") /\
     ~ In (error_result "Failed to save cat image")
          [error_result "Failed to fetch cat image";
           error_result "Failed to describe cat image";
           error_result "Failed to generate tagline"]).
Proof.
  intros Hopen.
  assert (Hsave : forall filename, save_image_locally self data filename w t
    = (Raise e, t ++ [EvImageOpen data; EvPrint (LogSaveError e)])).
  { intros f. by rewrite save_image_locally_eq, Hopen. }
  split; [apply Hsave|].
  intros t0 Hfetch Hdata. split; [|split; [|split]].
  - by apply (run_after_save_raises self w t0 t data e).
  - done.
  - by apply error_result_failed.
  - intros [H|[H|[H|[]]]]; by apply error_result_inj in H.
Qed.

Lemma undecodable_bytes_fail_the_save_witness :
  Image_open world_garbage
    [EvPrint LogStarting; EvGet "https://cataas.com/cat" 10; EvPrint (LogFetched 500)]
    garbage_bytes = Raise UnidentifiedImageError /\
  run_full_pipeline sample_generator world_garbage []
    = (Ret (error_result "Failed to save cat image"),
       [EvPrint LogStarting; EvGet "https://cataas.com/cat" 10; EvPrint (LogFetched 500);
        EvImageOpen garbage_bytes; EvPrint (LogSaveError UnidentifiedImageError)]).
Proof.
  assert (Hopen : Image_open world_garbage
    [EvPrint LogStarting; EvGet "https://cataas.com/cat" 10; EvPrint (LogFetched 500)]
    garbage_bytes = Raise UnidentifiedImageError) by reflexivity.
  split; [exact Hopen|].
  apply (proj2 (undecodable_bytes_fail_the_save sample_generator world_garbage _
                  garbage_bytes default_filename UnidentifiedImageError Hopen) []).
  - reflexivity.
  - discriminate.
Defined.

(** C2 as stated fails on an empty body: the host answers 200 with no
    bytes; the fetch step yields them, Pillow would not decode them, and yet
    the run ends with the fetch error, before the persist step is tried. *)
Lemma empty_body_never_reaches_the_save :
  fetch_random_cat_image sample_generator world_empty_body [EvPrint LogStarting]
    = (Ret (Some []),
       [EvPrint LogStarting; EvGet "https://cataas.com/cat" 10; EvPrint (LogFetched 0)]) /\
  Image_open world_empty_body
    [EvPrint LogStarting; EvGet "https://cataas.com/cat" 10; EvPrint (LogFetched 0)] []
    = Raise UnidentifiedImageError /\
  run_full_pipeline sample_generator world_empty_body []
    = (Ret (error_result "Failed to fetch cat image"),
       [EvPrint LogStarting; EvGet "https://cataas.com/cat" 10; EvPrint (LogFetched 0)]) /\
  error_result "Failed to fetch cat image" <> error_result "Failed to save cat image".
Proof.
  repeat split; try reflexivity.
  intros H. by apply error_result_inj in H.
Qed.

(** C3 (amended). When the image host does not deliver (a 4xx or 5xx
    status, a timeout or another error of the network layer),
    [fetch_random_cat_image] reports the error and returns [None]; it raises
    nothing.  A pipeline run that fetched this way returns exactly
    [{"error": "Failed to fetch cat image"}], and its trace ends with the
    GET and the report: persist, describe and caption are not attempted. *)
Theorem fetch_failure_stops_the_pipeline
    (self : CatTaglineGenerator) (w : World) (t : trace) :
  fetch_fails (requests_get w t (cataas_base_url self +:+ "/cat") 10) ->
  exists e,
    fetch_random_cat_image self w t
      = (Ret None,
         t ++ [EvGet (cataas_base_url self +:+ "/cat") 10; EvPrint (LogFetchError e)]) /\
    is_RequestException e = true /\
    (forall t0, t = t0 ++ [EvPrint LogStarting] ->
       run_full_pipeline self w t0
         = (Ret (error_result "Failed to fetch cat image"),
            t0 ++ [EvPrint LogStarting;
                   EvGet (cataas_base_url self +:+ "/cat") 10;
                   EvPrint (LogFetchError e)])).
Proof.
  intros Hfail.
  assert (Hfetch : exists e, is_RequestException e = true /\
    fetch_random_cat_image self w t
      = (Ret None,
         t ++ [EvGet (cataas_base_url self +:+ "/cat") 10; EvPrint (LogFetchError e)])).
  { rewrite fetch_random_cat_image_eq. cbv zeta.
    destruct (requests_get w t _ 10) as [r|e]; simpl in Hfail.
    - exists (HTTPError (status_code r)). split; [done|].
      replace ((400 <=? status_code r) && (status_code r <? 600)) with true; [done|].
      symmetry. apply andb_true_iff. split; [apply Z.leb_le|apply Z.ltb_lt]; lia.
    - by exists (RequestException e). }
  destruct Hfetch as (e & He & Hfetch). exists e.
  split; [exact Hfetch|]. split; [exact He|].
  intros t0 ->.
  rewrite (run_after_fetch_none self w t0 _ Hfetch).
  by rewrite <- app_assoc.
Qed.

Lemma fetch_failure_stops_the_pipeline_witness :
  fetch_fails (requests_get world_timeout [EvPrint LogStarting] "https://cataas.com/cat" 10) /\
  exists e,
    run_full_pipeline sample_generator world_timeout []
      = (Ret (error_result "Failed to fetch cat image"),
         [EvPrint LogStarting; EvGet "https://cataas.com/cat" 10; EvPrint (LogFetchError e)]).
Proof.
  assert (Hfail : fetch_fails
    (requests_get world_timeout [EvPrint LogStarting] "https://cataas.com/cat" 10))
    by exact I.
  split; [exact Hfail|].
  destruct (fetch_failure_stops_the_pipeline sample_generator world_timeout
              [EvPrint LogStarting] Hfail) as (e & _ & _ & Hrun).
  exists e. apply (Hrun []). reflexivity.
Defined.

(** C3 as stated fails twice.  On a 404 the run fails as described, but the
    message is ["Failed to fetch cat image"], not ["failed to fetch image"].
    On a 300 with a body (a status that is not 2xx) the fetch step yields the
    body and the run goes on to persist, describe and caption. *)
Lemma fetch_failure_as_stated_fails :
  run_full_pipeline sample_generator world_404 []
    = (Ret (error_result "Failed to fetch cat image"),
       [EvPrint LogStarting; EvGet "https://cataas.com/cat" 10;
        EvPrint (LogFetchError (HTTPError 404))]) /\
  error_result "Failed to fetch cat image" <> error_result "failed to fetch image" /\
  requests_get world_300 [EvPrint LogStarting] "https://cataas.com/cat" 10
    = HttpResponse {| status_code := 300; resp_content := jpeg_bytes |} /\
  ~ (200 <= 300 < 300) /\
  fetch_random_cat_image sample_generator world_300 [EvPrint LogStarting]
    = (Ret (Some jpeg_bytes),
       [EvPrint LogStarting; EvGet "https://cataas.com/cat" 10; EvPrint (LogFetched 10)]) /\
  fst (run_full_pipeline sample_generator world_300 [])
    = Ret {[ "image_path" := VStr "current_cat.jpg";
             "description" := VStr tabby;
             "tagline" := VStr "Meow";
             "success" := VBool true ]} /\
  persist_events (snd (run_full_pipeline sample_generator world_300 []))
    = [EvImageOpen jpeg_bytes; EvImageSave {| image_buffer := jpeg_bytes |} "current_cat.jpg"] /\
  chat_requests (snd (run_full_pipeline sample_generator world_300 []))
    = [describe_request jpeg_bytes; tagline_request tabby].
Proof.
  repeat split; try reflexivity.
  - intros H. by apply error_result_inj in H.
  - lia.
Qed.

(** C4. When fetch and persist succeed and the describe step yields an
    empty text or [None] (the call failed), [run_full_pipeline] returns
    exactly [{"error": "Failed to describe cat image"}], whose success flag
    reads false, and stops there: the only request that reached the
    generation API during the run is the describe request, none is a caption
    request. *)
Theorem describe_failure_skips_the_caption
    (self : CatTaglineGenerator) (w : World) (t t1 t2 t3 : trace)
    (data : bytes) (path : string) (description : option string) :
  fetch_random_cat_image self w (t ++ [EvPrint LogStarting]) = (Ret (Some data), t1) ->
  data <> [] ->
  save_image_locally self data default_filename w t1 = (Ret path, t2) ->
  describe_image self data w t2 = (Ret description, t3) ->
  truthy_opt truthy_str description = false ->
  run_full_pipeline self w t = (Ret (error_result "Failed to describe cat image"), t3) /\
  result_success (error_result "Failed to describe cat image") = false /\
  exists new,
    t3 = t ++ new /\
    chat_requests new = [describe_request data] /\
    forall d, ~ In (tagline_request d) (chat_requests new).
Proof.
  intros Hfetch Hdata Hsave Hdescribe Hfalsy.
  split; [|split; [done|]].
  - rewrite (run_after_describe self w t t1 data path t2 Hfetch Hdata Hsave).
    unfold bind at 1. rewrite Hdescribe.
    by destruct description as [[|c d]|].
  - destruct (trace_through_describe self w t t1 data path t2 description t3
                Hfetch Hsave Hdescribe) as (new & Ht3 & Hchat).
    exists new. split; [exact Ht3|]. split; [exact Hchat|].
    intros d. rewrite Hchat. intros [H|[]].
    by apply (describe_request_not_tagline data d).
Qed.

Lemma describe_failure_skips_the_caption_witness :
  run_full_pipeline sample_generator world_blank_description []
    = (Ret (error_result "Failed to describe cat image"),
       [EvPrint LogStarting; EvGet "https://cataas.com/cat" 10; EvPrint (LogFetched 10);
        EvImageOpen jpeg_bytes;
        EvImageSave {| image_buffer := jpeg_bytes |} "current_cat.jpg";
        EvPrint (LogSaved "current_cat.jpg");
        EvChatCreate (client sample_generator) (describe_request jpeg_bytes);
        EvPrint (LogDescription (Some ""))]).
Proof.
  apply (describe_failure_skips_the_caption sample_generator world_blank_description
           []
           [EvPrint LogStarting; EvGet "https://cataas.com/cat" 10; EvPrint (LogFetched 10)]
           [EvPrint LogStarting; EvGet "https://cataas.com/cat" 10; EvPrint (LogFetched 10);
            EvImageOpen jpeg_bytes;
            EvImageSave {| image_buffer := jpeg_bytes |} "current_cat.jpg";
            EvPrint (LogSaved "current_cat.jpg")]
           _ jpeg_bytes "current_cat.jpg" (Some "")).
  - reflexivity.
  - discriminate.
  - reflexivity.
  - reflexivity.
  - reflexivity.
Defined.

Example run_describe_refused :
  run_full_pipeline sample_generator world_describe_refused []
    = (Ret (error_result "Failed to describe cat image"),
       [EvPrint LogStarting; EvGet "https://cataas.com/cat" 10; EvPrint (LogFetched 10);
        EvImageOpen jpeg_bytes;
        EvImageSave {| image_buffer := jpeg_bytes |} "current_cat.jpg";
        EvPrint (LogSaved "current_cat.jpg");
        EvChatCreate (client sample_generator) (describe_request jpeg_bytes);
        EvPrint (LogDescribeError (OpenAIError "rate limit"))]).
Proof. reflexivity. Qed.

(** C5. When fetch and persist succeed and the describe step yields a
    non-empty description, the run goes on with exactly one more request to
    the generation API: the caption request built from that description.  Its
    user message is the fixed head, the description character for character,
    and the fixed tail; so the description occurs in the payload unchanged. *)
Theorem caption_request_carries_the_description
    (self : CatTaglineGenerator) (w : World) (t t1 t2 t3 : trace)
    (data : bytes) (path : string) (description : string) :
  fetch_random_cat_image self w (t ++ [EvPrint LogStarting]) = (Ret (Some data), t1) ->
  data <> [] ->
  save_image_locally self data default_filename w t1 = (Ret path, t2) ->
  describe_image self data w t2 = (Ret (Some description), t3) ->
  description <> "" ->
  (exists result l,
     run_full_pipeline self w t
       = (Ret result,
          t3 ++ [EvChatCreate (client self) (tagline_request description); EvPrint l])) /\
  (exists new,
     snd (run_full_pipeline self w t) = t ++ new /\
     chat_requests new = [describe_request data; tagline_request description]) /\
  (exists persona task,
     messages (tagline_request description)
       = [ {| role := "system"; content := ContentText persona |};
           {| role := "user"; content := ContentText task |} ] /\
     task = tagline_task_head +:+ description +:+ tagline_task_tail /\
     occurs_in description task).
Proof.
  intros Hfetch Hdata Hsave Hdescribe Hd.
  assert (Hrun : exists result l,
     run_full_pipeline self w t
       = (Ret result,
          t3 ++ [EvChatCreate (client self) (tagline_request description); EvPrint l])).
  { rewrite (run_after_describe self w t t1 data path t2 Hfetch Hdata Hsave).
    unfold bind at 1. rewrite Hdescribe.
    destruct description as [|c d]; [done|]. simpl.
    unfold bind at 1.
    destruct (generate_funny_tagline self (String c d) w t3) as [o t4] eqn:Htag.
    pose proof (generate_funny_tagline_trace _ _ _ _ _ _ Htag) as [l ->].
    rewrite generate_funny_tagline_eq in Htag. cbv zeta in Htag.
    destruct (chat_completions_create w t3 _ _) as [[[|[out|] rest]]|e];
      injection Htag as <- _; simpl; try by eauto.
    destruct (strip out); simpl; eauto. }
  split; [exact Hrun|]. split.
  - destruct Hrun as (result & l & ->). simpl.
    destruct (trace_through_describe self w t t1 data path t2 (Some description) t3
                Hfetch Hsave Hdescribe) as (new & -> & Hchat).
    eexists. split; [by rewrite <- app_assoc|].
    by rewrite chat_requests_app, Hchat.
  - do 2 eexists. split; [reflexivity|]. split; [reflexivity|].
    by exists tagline_task_head, tagline_task_tail.
Qed.

Lemma caption_request_carries_the_description_witness :
  (exists result l,
     run_full_pipeline sample_generator world_happy []
       = (Ret result,
          [EvPrint LogStarting; EvGet "https://cataas.com/cat" 10; EvPrint (LogFetched 10);
           EvImageOpen jpeg_bytes;
           EvImageSave {| image_buffer := jpeg_bytes |} "current_cat.jpg";
           EvPrint (LogSaved "current_cat.jpg");
           EvChatCreate (client sample_generator) (describe_request jpeg_bytes);
           EvPrint (LogDescription (Some "A tabby cat mid-yawn on a windowsill"))]
          ++ [EvChatCreate (client sample_generator)
                (tagline_request "A tabby cat mid-yawn on a windowsill");
              EvPrint l])) /\
  occurs_in "A tabby cat mid-yawn on a windowsill"
    (tagline_task_head +:+ "A tabby cat mid-yawn on a windowsill" +:+ tagline_task_tail).
Proof.
  destruct (caption_request_carries_the_description sample_generator world_happy
           []
           [EvPrint LogStarting; EvGet "https://cataas.com/cat" 10; EvPrint (LogFetched 10)]
           [EvPrint LogStarting; EvGet "https://cataas.com/cat" 10; EvPrint (LogFetched 10);
            EvImageOpen jpeg_bytes;
            EvImageSave {| image_buffer := jpeg_bytes |} "current_cat.jpg";
            EvPrint (LogSaved "current_cat.jpg")]
           [EvPrint LogStarting; EvGet "https://cataas.com/cat" 10; EvPrint (LogFetched 10);
            EvImageOpen jpeg_bytes;
            EvImageSave {| image_buffer := jpeg_bytes |} "current_cat.jpg";
            EvPrint (LogSaved "current_cat.jpg");
            EvChatCreate (client sample_generator) (describe_request jpeg_bytes);
            EvPrint (LogDescription (Some "A tabby cat mid-yawn on a windowsill"))]
           jpeg_bytes "current_cat.jpg" "A tabby cat mid-yawn on a windowsill")
    as (Hrun & _ & (persona & task & _ & -> & Hoccurs)).
  - reflexivity.
  - discriminate.
  - reflexivity.
  - reflexivity.
  - discriminate.
  - split; [exact Hrun | exact Hoccurs].
Defined.

(** C6. [__init__] takes the credential from its argument when one is
    given; only without one it reads [OPENAI_API_KEY] from the environment;
    with neither it raises [ValueError] on the spot.  Construction touches no
    collaborator (the trace is left as it was), and a generator that was
    constructed always holds a non-empty credential, so the failure is never
    left to the first call. *)
Theorem credential_resolution_order (explicit : option string) (w : World) (t : trace) :
  (forall k, explicit = Some k -> k <> "" ->
     __init__ explicit w t = (Ret (generator_for k), t)) /\
  (forall v, explicit = None -> environ w !! "OPENAI_API_KEY" = Some v -> v <> "" ->
     __init__ explicit w t = (Ret (generator_for v), t)) /\
  (truthy_opt truthy_str explicit = false ->
   truthy_opt truthy_str (environ w !! "OPENAI_API_KEY") = false ->
     __init__ explicit w t = (Raise (ValueError missing_key_message), t)) /\
  (forall self t', __init__ explicit w t = (Ret self, t') ->
     t' = t /\
     exists key, key <> "" /\ self = generator_for key).
Proof.
  split; [|split; [|split]].
  - intros k -> Hk. by apply __init___explicit.
  - intros v -> Henv Hv. rewrite __init___fallback by done.
    by rewrite Henv, (truthy_str_true v Hv).
  - intros Hexplicit Henv. rewrite __init___fallback by done.
    destruct (environ w !! "OPENAI_API_KEY") as [v|]; [|done].
    simpl in Henv. by rewrite Henv.
  - intros self t'. destruct (truthy_opt truthy_str explicit) eqn:Hexplicit.
    + destruct explicit as [k|]; [|done]. simpl in Hexplicit.
      rewrite __init___explicit by (by apply truthy_str_nonempty).
      intros [= <- <-]. split; [done|]. exists k. split; [by apply truthy_str_nonempty|done].
    + rewrite __init___fallback by done.
      destruct (environ w !! "OPENAI_API_KEY") as [v|]; [|done].
      destruct (truthy_str v) eqn:Hv; [|done].
      intros [= <- <-]. split; [done|]. exists v. split; [by apply truthy_str_nonempty|done].
Qed.

Lemma credential_resolution_order_witness :
  __init__ (Some "sk-arg") (world_with_env {[ "OPENAI_API_KEY" := "sk-env" ]}) []
    = (Ret (generator_for "sk-arg"), []) /\
  __init__ None (world_with_env {[ "OPENAI_API_KEY" := "sk-env" ]}) []
    = (Ret (generator_for "sk-env"), []) /\
  __init__ None (world_with_env ∅) [] = (Raise (ValueError missing_key_message), []).
Proof.
  split; [|split].
  - apply (credential_resolution_order (Some "sk-arg")
             (world_with_env {[ "OPENAI_API_KEY" := "sk-env" ]}) [] ) with (k := "sk-arg");
      [reflexivity | discriminate].
  - apply (credential_resolution_order None
             (world_with_env {[ "OPENAI_API_KEY" := "sk-env" ]}) []) with (v := "sk-env");
      [reflexivity | reflexivity | discriminate].
  - apply (credential_resolution_order None (world_with_env ∅) []); reflexivity.
Defined.

(** C7 (amended). [fetch_random_cat_image] issues one GET request to
    [{base_url}/cat] with a timeout of 10 and nothing else that reaches a
    collaborator, whatever the answer: there is no retry.  It returns the
    body of a 2xx response (and of any other response whose status is
    outside 400..599) and returns [None] on a 4xx or 5xx status and on an
    error of the network layer.  The base URL of a constructed generator is
    [https://cataas.com]. *)
Theorem fetch_is_one_bounded_get (self : CatTaglineGenerator) (w : World) (t : trace) :
  (exists l,
     snd (fetch_random_cat_image self w t)
       = t ++ [EvGet (cataas_base_url self +:+ "/cat") 10; EvPrint l]) /\
  (exists new,
     snd (fetch_random_cat_image self w t) = t ++ new /\
     get_requests new = [(cataas_base_url self +:+ "/cat", 10)]) /\
  (forall r,
     requests_get w t (cataas_base_url self +:+ "/cat") 10 = HttpResponse r ->
     (200 <= status_code r < 300 ->
        fst (fetch_random_cat_image self w t) = Ret (Some (resp_content r))) /\
     (400 <= status_code r < 600 ->
        fst (fetch_random_cat_image self w t) = Ret None) /\
     (~ 400 <= status_code r < 600 ->
        fst (fetch_random_cat_image self w t) = Ret (Some (resp_content r)))) /\
  (forall e,
     requests_get w t (cataas_base_url self +:+ "/cat") 10 = HttpRaises e ->
     fst (fetch_random_cat_image self w t) = Ret None) /\
  (forall key, cataas_base_url (generator_for key) +:+ "/cat" = "https://cataas.com/cat").
Proof.
  assert (Htrace : exists l,
     snd (fetch_random_cat_image self w t)
       = t ++ [EvGet (cataas_base_url self +:+ "/cat") 10; EvPrint l]).
  { destruct (fetch_random_cat_image self w t) as [o t'] eqn:Hfetch.
    apply fetch_random_cat_image_trace in Hfetch as [l ->]. by exists l. }
  split; [exact Htrace|]. split; [|split; [|split]].
  - destruct Htrace as [l ->]. by eexists.
  - intros r Hr. rewrite fetch_random_cat_image_eq. cbv zeta. rewrite Hr.
    repeat split; intros Hstatus.
    + replace ((400 <=? status_code r) && (status_code r <? 600)) with false; [done|].
      symmetry. apply andb_false_iff. left. apply Z.leb_gt. lia.
    + replace ((400 <=? status_code r) && (status_code r <? 600)) with true; [done|].
      symmetry. apply andb_true_iff. split; [apply Z.leb_le|apply Z.ltb_lt]; lia.
    + replace ((400 <=? status_code r) && (status_code r <? 600)) with false; [done|].
      symmetry. apply andb_false_iff.
      destruct (Z.leb_spec 400 (status_code r)); [right|by left].
      apply Z.ltb_ge. lia.
  - intros e He. rewrite fetch_random_cat_image_eq. cbv zeta. by rewrite He.
  - done.
Qed.

Lemma fetch_is_one_bounded_get_witness :
  snd (fetch_random_cat_image sample_generator world_happy [])
    = [EvGet "https://cataas.com/cat" 10; EvPrint (LogFetched 10)] /\
  fst (fetch_random_cat_image sample_generator world_happy []) = Ret (Some jpeg_bytes) /\
  fst (fetch_random_cat_image sample_generator world_404 []) = Ret None /\
  fst (fetch_random_cat_image sample_generator world_timeout []) = Ret None.
Proof.
  split; [reflexivity|]. split; [|split].
  - apply (fetch_is_one_bounded_get sample_generator world_happy [])
      with (r := {| status_code := 200; resp_content := jpeg_bytes |});
      [reflexivity | simpl; lia].
  - apply (fetch_is_one_bounded_get sample_generator world_404 [])
      with (r := {| status_code := 404; resp_content := [] |});
      [reflexivity | simpl; lia].
  - apply (fetch_is_one_bounded_get sample_generator world_timeout [])
      with (e := Timeout); reflexivity.
Defined.

(** C7 as stated fails on a status that is neither 2xx nor an error status:
    the host answers 300 with a body, and the fetch step returns the body as
    it does for a 200. *)
Lemma status_300_is_not_a_failure :
  requests_get world_300 [] "https://cataas.com/cat" 10
    = HttpResponse {| status_code := 300; resp_content := jpeg_bytes |} /\
  ~ (200 <= 300 < 300) /\
  fetch_random_cat_image sample_generator world_300 []
    = (Ret (Some jpeg_bytes),
       [EvGet "https://cataas.com/cat" 10; EvPrint (LogFetched 10)]).
Proof.
  repeat split. lia.
Qed.

(** C8. Whenever [generate_funny_tagline] returns a caption, the model
    answered with a text and the caption is that text stripped: the text is
    the caption between two runs of white space, and the caption neither
    starts nor ends with white space.  The call sent one request to the
    generation API: a system message (the persona) followed by a user message
    (the task), [max_tokens = 100], [temperature = 0.9]. *)
Theorem caption_is_the_trimmed_output
    (self : CatTaglineGenerator) (image_description : string) (w : World)
    (t t' : trace) (caption : string) :
  generate_funny_tagline self image_description w t = (Ret (Some caption), t') ->
  (exists out rest,
     chat_completions_create w t (client self) (tagline_request image_description)
       = Ret {| choices := Some out :: rest |} /\
     caption = strip out /\
     trimmed_of out caption) /\
  t' = t ++ [EvChatCreate (client self) (tagline_request image_description);
             EvPrint (LogTagline caption)] /\
  (exists task,
     messages (tagline_request image_description)
       = [ {| role := "system"; content := ContentText tagline_persona |};
           {| role := "user"; content := ContentText task |} ]) /\
  max_tokens (tagline_request image_description) = 100 /\
  temperature (tagline_request image_description) = Some (9 # 10)%Q.
Proof.
  rewrite generate_funny_tagline_eq. cbv zeta.
  destruct (chat_completions_create w t _ _) as [[[|[out|] rest]]|e]; try discriminate.
  intros [= <- <-]. repeat split.
  - exists out, rest. repeat split; apply strip_trimmed.
  - by eexists.
Qed.

Lemma caption_is_the_trimmed_output_witness :
  generate_funny_tagline sample_generator tabby world_happy
    [EvChatCreate (client sample_generator) (describe_request jpeg_bytes)]
  = (Ret (Some "Yawn and order!"),
     [EvChatCreate (client sample_generator) (describe_request jpeg_bytes);
      EvChatCreate (client sample_generator) (tagline_request tabby);
      EvPrint (LogTagline "Yawn and order!")]) /\
  exists out rest,
    chat_completions_create world_happy
      [EvChatCreate (client sample_generator) (describe_request jpeg_bytes)]
      (client sample_generator) (tagline_request tabby)
      = Ret {| choices := Some out :: rest |} /\
    "Yawn and order!" = strip out /\
    trimmed_of out "Yawn and order!".
Proof.
  assert (Hcall : generate_funny_tagline sample_generator tabby world_happy
    [EvChatCreate (client sample_generator) (describe_request jpeg_bytes)]
    = (Ret (Some "Yawn and order!"),
       [EvChatCreate (client sample_generator) (describe_request jpeg_bytes);
        EvChatCreate (client sample_generator) (tagline_request tabby);
        EvPrint (LogTagline "Yawn and order!")])) by reflexivity.
  split; [exact Hcall|].
  exact (proj1 (caption_is_the_trimmed_output sample_generator tabby world_happy _ _ _ Hcall)).
Defined.

(** C9. An empty string given as the credential is treated as no
    credential: [__init__] does exactly what it does without the argument.
    With a non-empty [OPENAI_API_KEY] in the environment the generator is
    constructed around the environment's value; with the variable missing or
    empty, [__init__] raises [ValueError]. *)
Theorem empty_credential_counts_as_absent (w : World) (t : trace) :
  (forall v, environ w !! "OPENAI_API_KEY" = Some v -> v <> "" ->
     __init__ (Some "") w t = (Ret (generator_for v), t)) /\
  (truthy_opt truthy_str (environ w !! "OPENAI_API_KEY") = false ->
     __init__ (Some "") w t = (Raise (ValueError missing_key_message), t)) /\
  __init__ (Some "") w t = __init__ None w t.
Proof.
  rewrite !__init___fallback by done. repeat split.
  - intros v -> Hv. by rewrite (truthy_str_true v Hv).
  - destruct (environ w !! "OPENAI_API_KEY") as [v|]; [|done]. simpl. by intros ->.
Qed.

Lemma empty_credential_counts_as_absent_witness :
  __init__ (Some "") (world_with_env {[ "OPENAI_API_KEY" := "sk-env" ]}) []
    = (Ret (generator_for "sk-env"), []) /\
  __init__ (Some "") (world_with_env {[ "OPENAI_API_KEY" := "" ]}) []
    = (Raise (ValueError missing_key_message), []) /\
  __init__ (Some "") (world_with_env ∅) []
    = (Raise (ValueError missing_key_message), []).
Proof.
  split; [|split].
  - apply (empty_credential_counts_as_absent
             (world_with_env {[ "OPENAI_API_KEY" := "sk-env" ]}) []) with (v := "sk-env");
      [reflexivity | discriminate].
  - apply (empty_credential_counts_as_absent
             (world_with_env {[ "OPENAI_API_KEY" := "" ]}) []); reflexivity.
  - apply (empty_credential_counts_as_absent (world_with_env ∅) []); reflexivity.
Defined.

(** C10. For every byte sequence, [describe_image] sends one request whose
    only image is the data URL ["data:image/jpeg;base64,"] followed by the
    base64 encoding of exactly these bytes (decoding it gives them back).
    The prefix is a constant of the request: it does not depend on the
    bytes, so PNG or GIF bytes are labelled [image/jpeg] too. *)
Theorem describe_request_labels_every_image_jpeg
    (self : CatTaglineGenerator) (data : bytes) (w : World) (t : trace) :
  (exists l,
     snd (describe_image self data w t)
       = t ++ [EvChatCreate (client self) (describe_request data); EvPrint l]) /\
  image_urls (describe_request data) = ["data:image/jpeg;base64," +:+ b64encode data] /\
  b64decode (b64encode data) = Some data.
Proof.
  split; [|split].
  - destruct (describe_image self data w t) as [o t'] eqn:Hdescribe.
    apply describe_image_trace in Hdescribe as [l ->]. by exists l.
  - reflexivity.
  - apply b64decode_b64encode.
Qed.

Example describe_request_png :
  image_urls (describe_request png_bytes) = ["data:image/jpeg;base64,iVBORw0KGgo="].
Proof. reflexivity. Qed.

Example describe_request_gif :
  image_urls (describe_request gif_bytes) = ["data:image/jpeg;base64,R0lGODlh"].
Proof. reflexivity. Qed.

Example describe_request_jpeg :
  image_urls (describe_request jpeg_bytes) = ["data:image/jpeg;base64,/9j/4AAQSkZJRg=="].
Proof. reflexivity. Qed.

(** X1. When fetch, persist and describe succeed and the caption step
    yields [None] or an empty caption, [run_full_pipeline] returns exactly
    [{"error": "Failed to generate tagline"}].  By then all five collaborator
    calls of a run have been made: the image file was written and both
    requests were sent. *)
Theorem caption_failure_fails_the_run
    (self : CatTaglineGenerator) (w : World) (t t1 t2 t3 t4 : trace)
    (data : bytes) (path description : string) (tagline : option string) :
  fetch_random_cat_image self w (t ++ [EvPrint LogStarting]) = (Ret (Some data), t1) ->
  data <> [] ->
  save_image_locally self data default_filename w t1 = (Ret path, t2) ->
  describe_image self data w t2 = (Ret (Some description), t3) ->
  description <> "" ->
  generate_funny_tagline self description w t3 = (Ret tagline, t4) ->
  truthy_opt truthy_str tagline = false ->
  run_full_pipeline self w t = (Ret (error_result "Failed to generate tagline"), t4) /\
  result_success (error_result "Failed to generate tagline") = false /\
  exists new image,
    t4 = t ++ new /\
    collaborator_calls new = all_calls self data image description.
Proof.
  intros Hfetch Hdata Hsave Hdescribe Hd Htagline Hfalsy.
  split; [|split; [done|]].
  - rewrite (run_after_describe self w t t1 data path t2 Hfetch Hdata Hsave).
    unfold bind at 1. rewrite Hdescribe.
    destruct description as [|c d]; [done|]. simpl.
    unfold bind at 1. rewrite Htagline.
    by destruct tagline as [[|c' tg]|].
  - by apply (trace_through_tagline self w t t1 data path t2 description t3 (Ret tagline)).
Qed.

Lemma caption_failure_fails_the_run_witness :
  run_full_pipeline sample_generator world_caption_refused []
    = (Ret (error_result "Failed to generate tagline"),
       [EvPrint LogStarting; EvGet "https://cataas.com/cat" 10; EvPrint (LogFetched 10);
        EvImageOpen jpeg_bytes;
        EvImageSave {| image_buffer := jpeg_bytes |} "current_cat.jpg";
        EvPrint (LogSaved "current_cat.jpg");
        EvChatCreate (client sample_generator) (describe_request jpeg_bytes);
        EvPrint (LogDescription (Some tabby));
        EvChatCreate (client sample_generator) (tagline_request tabby);
        EvPrint (LogTaglineError (OpenAIError "rate limit"))]).
Proof.
  apply (caption_failure_fails_the_run sample_generator world_caption_refused
           []
           [EvPrint LogStarting; EvGet "https://cataas.com/cat" 10; EvPrint (LogFetched 10)]
           [EvPrint LogStarting; EvGet "https://cataas.com/cat" 10; EvPrint (LogFetched 10);
            EvImageOpen jpeg_bytes;
            EvImageSave {| image_buffer := jpeg_bytes |} "current_cat.jpg";
            EvPrint (LogSaved "current_cat.jpg")]
           [EvPrint LogStarting; EvGet "https://cataas.com/cat" 10; EvPrint (LogFetched 10);
            EvImageOpen jpeg_bytes;
            EvImageSave {| image_buffer := jpeg_bytes |} "current_cat.jpg";
            EvPrint (LogSaved "current_cat.jpg");
            EvChatCreate (client sample_generator) (describe_request jpeg_bytes);
            EvPrint (LogDescription (Some tabby))]
           _ jpeg_bytes "current_cat.jpg" tabby None).
  - reflexivity.
  - discriminate.
  - reflexivity.
  - reflexivity.
  - discriminate.
  - reflexivity.
  - reflexivity.
Defined.

(** X2. When the model answers the caption request with a text,
    [generate_funny_tagline] returns the empty caption exactly when the text
    is white space only (or empty); [run_full_pipeline] treats that caption
    as a failure of the step. *)
Theorem blank_caption_counts_as_failure
    (self : CatTaglineGenerator) (image_description : string) (w : World) (t : trace)
    (out : string) (rest : list (option string)) :
  chat_completions_create w t (client self) (tagline_request image_description)
    = Ret {| choices := Some out :: rest |} ->
  (all_space out = true <->
   fst (generate_funny_tagline self image_description w t) = Ret (Some "")) /\
  (all_space out = true ->
   truthy_opt truthy_str (Some (strip out)) = false) /\
  (all_space out = false ->
   exists caption,
     fst (generate_funny_tagline self image_description w t) = Ret (Some caption) /\
     truthy_str caption = true).
Proof.
  intros Hcall. rewrite generate_funny_tagline_eq. cbv zeta. rewrite Hcall. simpl.
  split; [|split].
  - rewrite all_space_strip. split; [by intros ->|by intros [= ->]].
  - intros Hs. apply all_space_strip in Hs. by rewrite Hs.
  - intros Hs. exists (strip out). split; [done|].
    destruct (strip out) eqn:Hstrip; [|done].
    apply all_space_strip in Hstrip. congruence.
Qed.

Lemma blank_caption_counts_as_failure_witness :
  fst (generate_funny_tagline sample_generator tabby world_blank_caption
         [EvChatCreate (client sample_generator) (describe_request jpeg_bytes)])
    = Ret (Some "") /\
  fst (run_full_pipeline sample_generator world_blank_caption [])
    = Ret (error_result "Failed to generate tagline").
Proof.
  split; [|reflexivity].
  apply (blank_caption_counts_as_failure sample_generator tabby world_blank_caption
           [EvChatCreate (client sample_generator) (describe_request jpeg_bytes)]
           ("  " +:+ LF) []); reflexivity.
Defined.

(** X3. When Pillow decodes the bytes but cannot write the file,
    [save_image_locally] reports the error and raises the very exception of
    [image.save]; a pipeline run that got there returns exactly
    [{"error": "Failed to save cat image"}] and sends nothing to the
    generation API. *)
Theorem write_failure_fails_the_save
    (self : CatTaglineGenerator) (w : World) (t : trace)
    (data : bytes) (filename : string) (image : Image) (e : exn) :
  Image_open w t data = Ret image ->
  Image_save w (t ++ [EvImageOpen data]) image filename = Raise e ->
  save_image_locally self data filename w t
    = (Raise e, t ++ [EvImageOpen data; EvImageSave image filename; EvPrint (LogSaveError e)]) /\
  (forall t0,
     filename = default_filename ->
     fetch_random_cat_image self w (t0 ++ [EvPrint LogStarting]) = (Ret (Some data), t) ->
     data <> [] ->
     run_full_pipeline self w t0
       = (Ret (error_result "Failed to save cat image"),
          t ++ [EvImageOpen data; EvImageSave image filename; EvPrint (LogSaveError e)]) /\
     exists new,
       snd (run_full_pipeline self w t0) = t0 ++ new /\ chat_requests new = []).
Proof.
  intros Hopen Hsave.
  assert (Hraise : save_image_locally self data filename w t
    = (Raise e, t ++ [EvImageOpen data; EvImageSave image filename; EvPrint (LogSaveError e)])).
  { by rewrite save_image_locally_eq, Hopen, Hsave. }
  split; [exact Hraise|].
  intros t0 -> Hfetch Hdata.
  assert (Hrun : run_full_pipeline self w t0
    = (Ret (error_result "Failed to save cat image"),
       t ++ [EvImageOpen data; EvImageSave image default_filename; EvPrint (LogSaveError e)])).
  { by apply (run_after_save_raises self w t0 t data e). }
  split; [exact Hrun|]. rewrite Hrun. simpl.
  apply fetch_random_cat_image_trace in Hfetch as [l ->].
  eexists. split; [by rewrite <- !app_assoc|]. reflexivity.
Qed.

Lemma write_failure_fails_the_save_witness :
  run_full_pipeline sample_generator world_disk_full []
    = (Ret (error_result "Failed to save cat image"),
       [EvPrint LogStarting; EvGet "https://cataas.com/cat" 10; EvPrint (LogFetched 10)]
       ++ [EvImageOpen jpeg_bytes;
           EvImageSave {| image_buffer := jpeg_bytes |} "current_cat.jpg";
           EvPrint (LogSaveError (OSError "No space left on device"))]).
Proof.
  apply (proj2 (write_failure_fails_the_save sample_generator world_disk_full
                  [EvPrint LogStarting; EvGet "https://cataas.com/cat" 10;
                   EvPrint (LogFetched 10)]
                  jpeg_bytes "current_cat.jpg" {| image_buffer := jpeg_bytes |}
                  (OSError "No space left on device") eq_refl eq_refl) []).
  - reflexivity.
  - reflexivity.
  - discriminate.
Defined.




(** X6. [fetch_random_cat_image], [describe_image] and
    [generate_funny_tagline] return in every world; an exception of the
    generation API becomes the result [None]. *)
Theorem collaborator_steps_never_raise
    (self : CatTaglineGenerator) (w : World) (t : trace)
    (image_data : bytes) (image_description : string) :
  (exists o t', fetch_random_cat_image self w t = (Ret o, t')) /\
  (exists o t', describe_image self image_data w t = (Ret o, t')) /\
  (exists o t', generate_funny_tagline self image_description w t = (Ret o, t')) /\
  (forall e,
     chat_completions_create w t (client self) (describe_request image_data) = Raise e ->
     fst (describe_image self image_data w t) = Ret None) /\
  (forall e,
     chat_completions_create w t (client self) (tagline_request image_description) = Raise e ->
     fst (generate_funny_tagline self image_description w t) = Ret None).
Proof.
  repeat split.
  - rewrite fetch_random_cat_image_eq. cbv zeta.
    destruct (requests_get w t _ 10) as [r|e];
      [destruct ((400 <=? status_code r) && (status_code r <? 600))|]; eauto.
  - rewrite describe_image_eq. cbv zeta.
    destruct (chat_completions_create w t _ _) as [[[|d rest]]|e]; eauto.
  - rewrite generate_funny_tagline_eq. cbv zeta.
    destruct (chat_completions_create w t _ _) as [[[|[out|] rest]]|e]; eauto.
  - intros e He. rewrite describe_image_eq. cbv zeta. by rewrite He.
  - intros e He. rewrite generate_funny_tagline_eq. cbv zeta. by rewrite He.
Qed.

Lemma collaborator_steps_never_raise_witness :
  fst (describe_image sample_generator jpeg_bytes world_describe_refused []) = Ret None /\
  fst (generate_funny_tagline sample_generator tabby world_caption_refused
         [EvChatCreate (client sample_generator) (describe_request jpeg_bytes)]) = Ret None.
Proof.
  split.
  - apply (collaborator_steps_never_raise sample_generator world_describe_refused []
             jpeg_bytes tabby) with (e := OpenAIError "rate limit"). reflexivity.
  - apply (collaborator_steps_never_raise sample_generator world_caption_refused
             [EvChatCreate (client sample_generator) (describe_request jpeg_bytes)]
             jpeg_bytes tabby) with (e := OpenAIError "rate limit"). reflexivity.
Defined.

(** X7. For a generator that [__init__] constructed, every request a
    pipeline run sends to the generation API goes through a client holding
    the resolved credential: the argument when it was given and non-empty,
    the value of [OPENAI_API_KEY] otherwise; it is never empty. *)
Theorem every_request_carries_the_resolved_key
    (explicit : option string) (w : World) (t0 t0' t t' : trace)
    (self : CatTaglineGenerator) (result : gmap string value) :
  __init__ explicit w t0 = (Ret self, t0') ->
  run_full_pipeline self w t = (Ret result, t') ->
  exists key new,
    key <> "" /\
    t' = t ++ new /\
    (forall c req, In (EvChatCreate c req) new -> client_api_key c = Some key) /\
    (truthy_opt truthy_str explicit = true -> explicit = Some key) /\
    (truthy_opt truthy_str explicit = false -> environ w !! "OPENAI_API_KEY" = Some key).
Proof.
  intros Hinit Hrun.
  apply __init___returns in Hinit as (_ & key & Hkey & -> & Hexplicit & Henv).
  destruct (run_full_pipeline_outline (generator_for key) w t)
    as (result' & new & Hrun' & Houtline).
  rewrite Hrun in Hrun'. injection Hrun' as -> ->.
  exists key, new. repeat split; try done.
  intros c req Hin.
  destruct Houtline; simpl in Hin;
    repeat (destruct Hin as [Hin|Hin]; [try discriminate Hin; by injection Hin as <- _|]);
    done.
Qed.

Lemma every_request_carries_the_resolved_key_witness :
  exists key new,
    key <> "" /\
    snd (run_full_pipeline (generator_for "sk-arg") world_happy []) = [] ++ new /\
    (forall c req, In (EvChatCreate c req) new -> client_api_key c = Some key) /\
    (truthy_opt truthy_str (Some "sk-arg") = true -> Some "sk-arg" = Some key) /\
    (truthy_opt truthy_str (Some "sk-arg") = false ->
       environ world_happy !! "OPENAI_API_KEY" = Some key).
Proof.
  apply (every_request_carries_the_resolved_key (Some "sk-arg") world_happy [] [] []
           _ (generator_for "sk-arg")
           {[ "image_path" := VStr "current_cat.jpg";
              "description" := VStr tabby;
              "tagline" := VStr "Yawn and order!";
              "success" := VBool true ]}); reflexivity.
Defined.

(** X8. Two byte sequences give the same describe request only when they
    are equal, and the data URL of [n] bytes is 23 + 4 * ceil(n / 3)
    characters long. *)
Theorem describe_request_determines_the_image (data1 data2 : bytes) :
  (describe_request data1 = describe_request data2 <-> data1 = data2) /\
  exists url,
    image_urls (describe_request data1) = [url] /\
    String.length url = (23 + 4 * ((length data1 + 2) / 3))%nat.
Proof.
  split; [split|].
  - intros Heq. apply (f_equal image_urls) in Heq.
    change (["data:image/jpeg;base64," +:+ b64encode data1]
            = ["data:image/jpeg;base64," +:+ b64encode data2]) in Heq.
    injection Heq as Heq. apply append_inj_l in Heq. by apply b64encode_injective.
  - by intros ->.
  - eexists. split; [reflexivity|].
    by rewrite length_append_str, b64encode_length.
Qed.

(** X9. Without a usable [OPENAI_API_KEY] in the environment (missing or
    empty), [main] of the command line prints the configuration error and
    the [.env] hint and returns; it reaches no collaborator: the trace of the
    pipeline is left as it was, not even the starting line is printed. *)
Theorem cli_main_without_key (f : Frontend) (t : trace) (u : list ui_call) :
  truthy_opt truthy_str (environ (core f) !! "OPENAI_API_KEY") = false ->
  cli.main f t u
    = (Returns tt, t,
       u ++ [Console (ConConfigurationError (CoreExn (ValueError missing_key_message)));
             Console ConEnvHint]).
Proof.
  intros Henv.
  unfold cli.main, f_try, f_bind at 1, lift at 1.
  rewrite __init___fallback by done.
  destruct (environ (core f) !! "OPENAI_API_KEY") as [v|]; simpl in Henv.
  - rewrite Henv. unfold_caller. simpl. by rewrite <- app_assoc.
  - unfold_caller. simpl. by rewrite <- app_assoc.
Qed.

Lemma cli_main_without_key_witness :
  cli.main (frontend_of world_happy) [] []
    = (Returns tt, [],
       [] ++ [Console (ConConfigurationError (CoreExn (ValueError missing_key_message)));
              Console ConEnvHint]).
Proof.
  apply (cli_main_without_key (frontend_of world_happy) [] []). reflexivity.
Defined.

(** X10. With a non-empty [OPENAI_API_KEY], [main] runs the pipeline once,
    with the generator built around that key, and reports what it returned:
    the success block with the result's path, description and tagline, or
    the failure line with the result's error message. *)
Theorem cli_main_reports_the_run
    (f : Frontend) (t : trace) (u : list ui_call) (key : string) :
  environ (core f) !! "OPENAI_API_KEY" = Some key ->
  key <> "" ->
  exists result t',
    run_full_pipeline (generator_for key) (core f) t = (Ret result, t') /\
    ((exists description tagline,
        result = {[ "image_path" := VStr "current_cat.jpg";
                    "description" := VStr description;
                    "tagline" := VStr tagline;
                    "success" := VBool true ]} /\
        cli.main f t u
          = (Returns tt, t',
             u ++ success_block (VStr "current_cat.jpg") (VStr description) (VStr tagline))) \/
     (exists msg,
        result = error_result msg /\
        cli.main f t u = (Returns tt, t', u ++ [Console (ConPipelineFailed (VStr msg))]))).
Proof.
  intros Henv Hkey.
  destruct (run_full_pipeline_returns (generator_for key) (core f) t)
    as (result & t' & Hrun & Hresult).
  exists result, t'. split; [exact Hrun|].
  assert (Hinit : __init__ None (core f) t = (Ret (generator_for key), t)).
  { rewrite __init___fallback by done. by rewrite Henv, (truthy_str_true key Hkey). }
  destruct (cli_main_with_generator f t u key result t' Hinit Hrun Hresult)
    as [(d & c & -> & _ & _ & Hmain)|(msg & -> & _ & Hmain)].
  - left. by exists d, c.
  - right. by exists msg.
Qed.

Lemma cli_main_reports_the_run_witness :
  exists result t',
    run_full_pipeline (generator_for "sk-env") world_happy_with_key [] = (Ret result, t') /\
    ((exists description tagline,
        result = {[ "image_path" := VStr "current_cat.jpg";
                    "description" := VStr description;
                    "tagline" := VStr tagline;
                    "success" := VBool true ]} /\
        cli.main (frontend_of world_happy_with_key) [] []
          = (Returns tt, t',
             [] ++ success_block (VStr "current_cat.jpg") (VStr description) (VStr tagline))) \/
     (exists msg,
        result = error_result msg /\
        cli.main (frontend_of world_happy_with_key) [] []
          = (Returns tt, t', [] ++ [Console (ConPipelineFailed (VStr msg))]))).
Proof.
  apply (cli_main_reports_the_run (frontend_of world_happy_with_key) [] [] "sk-env");
    [reflexivity | discriminate].
Defined.

Example cli_main_success :
  snd (cli.main (frontend_of world_happy_with_key) [] [])
    = success_block (VStr "current_cat.jpg") (VStr tabby) (VStr "Yawn and order!").
Proof. reflexivity. Qed.

(** X11. [main] of the command line returns in every world, and what it
    prints is one of three reports: the configuration error, the failure
    line with one of the four messages of the pipeline, or the success block
    with non-empty description and tagline.  It never prints the
    "Unexpected error" line and never falls back to "Unknown error". *)
Theorem cli_main_always_reports (f : Frontend) (t : trace) (u : list ui_call) :
  exists t' report,
    cli.main f t u = (Returns tt, t', u ++ report) /\
    cli_report report /\
    (forall e, ~ In (Console (ConUnexpected e)) report) /\
    ~ In (Console (ConPipelineFailed (VStr "Unknown error"))) report.
Proof.
  assert (Hmain : exists t' report,
    cli.main f t u = (Returns tt, t', u ++ report) /\ cli_report report).
  { destruct (truthy_opt truthy_str (environ (core f) !! "OPENAI_API_KEY")) eqn:Henv.
    - destruct (environ (core f) !! "OPENAI_API_KEY") as [key|] eqn:Hkey; [|done].
      simpl in Henv.
      destruct (run_full_pipeline_returns (generator_for key) (core f) t)
        as (result & t' & Hrun & Hresult).
      assert (Hinit : __init__ None (core f) t = (Ret (generator_for key), t)).
      { rewrite __init___fallback by done. by rewrite Hkey, Henv. }
      destruct (cli_main_with_generator f t u key result t' Hinit Hrun Hresult)
        as [(d & c & _ & Hd & Hc & Hmain)|(msg & _ & Hmsg & Hmain)].
      + exists t'. eexists. split; [exact Hmain|]. by constructor.
      + exists t'. eexists. split; [exact Hmain|]. by constructor.
    - exists t. eexists. split; [by apply cli_main_without_key|]. constructor. }
  destruct Hmain as (t' & report & Hmain & Hreport).
  exists t', report. split; [exact Hmain|]. split; [exact Hreport|].
  split.
  - intros e Hin. destruct Hreport; simpl in Hin;
      repeat (destruct Hin as [Hin|Hin]; [discriminate Hin|]); done.
  - intros Hin. destruct Hreport as [|msg Hmsg|]; simpl in Hin;
      repeat (destruct Hin as [Hin|Hin]; [try discriminate Hin|]); try done.
    injection Hin as ->. simpl in Hmsg.
    repeat (destruct Hmsg as [Hmsg|Hmsg]; [discriminate Hmsg|]). done.
Qed.

(** X12. [is_running_locally()] answers true exactly when neither
    [STREAMLIT_SHARING_MODE] nor [STREAMLIT_SERVER_PORT] is set and
    [STREAMLIT_SERVER_ADDRESS] (if set) does not contain [streamlit.io].
    The two variables are tested for presence, not for truth: set to any
    value, even the empty string, either one makes the answer false. *)
Theorem is_running_locally_wants_no_sign_of_a_server
    (f : Frontend) (t : trace) (u : list ui_call) :
  exists b,
    streamlit_app.is_running_locally f t u = (Returns b, t, u) /\
    (b = true <->
     environ (core f) !! "STREAMLIT_SHARING_MODE" = None /\
     environ (core f) !! "STREAMLIT_SERVER_PORT" = None /\
     forall address,
       environ (core f) !! "STREAMLIT_SERVER_ADDRESS" = Some address ->
       ~ occurs_in "streamlit.io" address) /\
    (forall v, environ (core f) !! "STREAMLIT_SHARING_MODE" = Some v -> b = false) /\
    (forall v, environ (core f) !! "STREAMLIT_SERVER_PORT" = Some v -> b = false).
Proof.
  exists (runs_locally f). split; [apply is_running_locally_eq|].
  split; [apply runs_locally_iff|].
  split; intros v Hv; destruct (runs_locally f) eqn:Hlocal; try done;
    apply runs_locally_iff in Hlocal as (Hmode & Hport & _); congruence.
Qed.

Lemma is_running_locally_wants_no_sign_of_a_server_witness :
  streamlit_app.is_running_locally frontend_empty_port [] [] = (Returns false, [], []).
Proof.
  destruct (is_running_locally_wants_no_sign_of_a_server frontend_empty_port [] [])
    as (b & Hcall & _ & _ & Hport).
  rewrite Hcall. by rewrite (Hport "" eq_refl).
Defined.

(** X13. [get_api_key()] never raises.  Locally it returns the value of
    [OPENAI_API_KEY] in the environment; deployed it returns the secret of
    that name, and [None] when there is no secrets file or the secret is not
    in it: deployed, the environment variable is not consulted. *)
Theorem get_api_key_never_raises (f : Frontend) (t : trace) (u : list ui_call) :
  exists key,
    streamlit_app.get_api_key f t u = (Returns key, t, u) /\
    (runs_locally f = true -> key = environ (core f) !! "OPENAI_API_KEY") /\
    (runs_locally f = false -> st_secrets f = None -> key = None) /\
    (runs_locally f = false ->
     forall store, st_secrets f = Some store -> key = store !! "OPENAI_API_KEY").
Proof.
  eexists. split; [apply get_api_key_eq|].
  unfold secret. repeat split.
  - by intros ->.
  - by intros -> ->.
  - by intros -> store ->.
Qed.

Lemma get_api_key_never_raises_witness :
  streamlit_app.get_api_key frontend_typed_key [] [] = (Returns None, [], []) /\
  environ (core frontend_typed_key) !! "OPENAI_API_KEY" = Some "sk-env".
Proof.
  split; [|reflexivity].
  destruct (get_api_key_never_raises frontend_typed_key [] []) as (key & Hcall & _ & Hnone & _).
  rewrite Hcall. by rewrite (Hnone eq_refl eq_refl).
Defined.

(** X14. [main] of the web front end always returns.  It runs the
    pipeline only when a key was resolved (locally from the environment;
    deployed from the secrets store, else from the password field) and the
    button was pressed, and then with the generator built around exactly
    that key, which is never empty; otherwise it reaches no collaborator. *)
Theorem web_main_runs_with_the_resolved_key
    (f : Frontend) (t : trace) (u : list ui_call) :
  (exists u',
     streamlit_app.main f t u
     = (Returns tt,
        match resolved_key f with
        | Some key =>
            if button_pressed f
            then snd (run_full_pipeline (generator_for key) (core f) t)
            else t
        | None => t
        end, u')) /\
  (forall key, resolved_key f = Some key -> key <> "").
Proof.
  split; [|apply resolved_key_nonempty].
  rewrite web_main_eq.
  destruct (resolved_key f) as [key|] eqn:Hkey; [|eauto].
  destruct (button_pressed f); [|eauto].
  apply generate_cat_content_returns. by apply (resolved_key_nonempty f).
Qed.

Example web_main_uses_the_typed_key :
  resolved_key frontend_typed_key = Some "sk-typed" /\
  chat_requests (snd (fst (streamlit_app.main frontend_typed_key [] [])))
    = [describe_request jpeg_bytes; tagline_request tabby] /\
  forall c req,
    In (EvChatCreate c req) (snd (fst (streamlit_app.main frontend_typed_key [] []))) ->
    client_api_key c = Some "sk-typed".
Proof.
  split; [reflexivity|]. split; [reflexivity|].
  intros c req Hin. vm_compute in Hin.
  repeat (destruct Hin as [Hin|Hin]; [try discriminate Hin; by injection Hin as <- _|]).
  done.
Qed.

(** X15. Without a resolved key, [main] of the web front end shows the
    header and the API-key section and returns: no button is drawn, no
    spinner is started, the trace of the pipeline is left as it was.  The
    password field is part of the section exactly when the app is deployed. *)
Theorem web_main_without_key_stops (f : Frontend) (t : trace) (u : list ui_call) :
  resolved_key f = None ->
  streamlit_app.main f t u
    = (Returns tt, t,
       u ++ [St st_markdown TxtHeader; St st_markdown TxtSubtitle] ++ key_section_shown f) /\
  ~ In StButton (key_section_shown f) /\
  ~ In StSpinner (key_section_shown f) /\
  (In StTextInput (key_section_shown f) <-> runs_locally f = false).
Proof.
  intros Hkey. rewrite web_main_eq, Hkey. split; [done|].
  unfold resolved_key in Hkey. unfold key_section_shown.
  destruct (runs_locally f).
  - destruct (truthy_opt truthy_str (environ (core f) !! "OPENAI_API_KEY"));
      repeat split; simpl; try tauto; try discriminate;
      intros Hin; repeat (destruct Hin as [Hin|Hin]; [discriminate Hin|]); done.
  - destruct (secret f "OPENAI_API_KEY") as [k|]; simpl in *.
    + destruct (truthy_str k); [done|].
      destruct (truthy_str (text_input_value f)); [done|].
      repeat split; simpl; try tauto;
        intros Hin; repeat (destruct Hin as [Hin|Hin]; [discriminate Hin|]); done.
    + destruct (truthy_str (text_input_value f)); [done|].
      repeat split; simpl; try tauto;
        intros Hin; repeat (destruct Hin as [Hin|Hin]; [discriminate Hin|]); done.
Qed.

Lemma web_main_without_key_stops_witness :
  streamlit_app.main frontend_no_key [] []
    = (Returns tt, [],
       [] ++ [St st_markdown TxtHeader; St st_markdown TxtSubtitle]
          ++ key_section_shown frontend_no_key).
Proof.
  apply (web_main_without_key_stops frontend_no_key [] []). reflexivity.
Defined.

Example web_main_asks_for_the_key :
  snd (streamlit_app.main frontend_no_key [] [])
    = [St st_markdown TxtHeader; St st_markdown TxtSubtitle;
       St st_markdown TxtSectionOpen; St st_warning TxtKeyRequired;
       St st_info TxtEnterKeyBelow; StTextInput;
       St st_info TxtPleaseEnterKey; St st_markdown TxtSectionClose].
Proof. reflexivity. Qed.

(** X16. When the pipeline returns an error result,
    [generate_cat_content] shows the spinner and one error banner carrying
    the result's message, and nothing else: no success banner, no image, no
    tagline. *)
Theorem failed_run_shows_one_error_banner
    (f : Frontend) (t t' : trace) (u : list ui_call) (key msg : string) :
  key <> "" ->
  run_full_pipeline (generator_for key) (core f) t = (Ret (error_result msg), t') ->
  streamlit_app.generate_cat_content (Some key) f t u
    = (Returns tt, t', u ++ [StSpinner; St st_error (TxtPipelineError (VStr msg))]).
Proof.
  intros Hkey Hrun.
  destruct (run_full_pipeline_returns (generator_for key) (core f) t)
    as (result & t'' & Hrun' & Hresult).
  rewrite Hrun in Hrun'. injection Hrun' as <- <-.
  destruct (generate_cat_content_with_key f t u key _ t' Hkey Hrun Hresult)
    as [(d & c & Heq & _)|(msg' & Heq & _ & Hshow)].
  - symmetry in Heq. by apply complete_result_not_error in Heq.
  - apply error_result_inj in Heq as <-. exact Hshow.
Qed.

Lemma failed_run_shows_one_error_banner_witness :
  snd (streamlit_app.generate_cat_content (Some "sk-test") (frontend_of world_timeout) [] [])
    = [] ++ [StSpinner; St st_error (TxtPipelineError (VStr "Failed to fetch cat image"))].
Proof.
  rewrite (failed_run_shows_one_error_banner (frontend_of world_timeout) []
             [EvPrint LogStarting; EvGet "https://cataas.com/cat" 10;
              EvPrint (LogFetchError (RequestException Timeout))]
             [] "sk-test" "Failed to fetch cat image");
    [reflexivity | discriminate | reflexivity].
Defined.

(** X17. When the pipeline returns a complete result,
    [generate_cat_content] shows the success banner and then the results.
    If the saved file is not there, the image is skipped and the tagline is
    still written.  If the file is there but [Image.open] raises, the user
    sees the success banner followed by an "Unexpected error" banner, and no
    tagline. *)
Theorem successful_run_is_displayed
    (f : Frontend) (t t' : trace) (u : list ui_call) (key description tagline : string) :
  key <> "" ->
  run_full_pipeline (generator_for key) (core f) t
    = (Ret {[ "image_path" := VStr "current_cat.jpg";
              "description" := VStr description;
              "tagline" := VStr tagline;
              "success" := VBool true ]}, t') ->
  (path_exists f t' (VStr "current_cat.jpg") = false ->
   streamlit_app.generate_cat_content (Some key) f t u
     = (Returns tt, t',
        u ++ [StSpinner; St st_success TxtGenerated;
              OsPathExists (VStr "current_cat.jpg");
              St st_subheader TxtTaglineHeader;
              St st_write (TxtTagline (quoted tagline))])) /\
  (forall image,
     path_exists f t' (VStr "current_cat.jpg") = true ->
     Image_open_path f t' (VStr "current_cat.jpg") = Ret image ->
     streamlit_app.generate_cat_content (Some key) f t u
       = (Returns tt, t',
          u ++ [StSpinner; St st_success TxtGenerated;
                OsPathExists (VStr "current_cat.jpg");
                ImageOpenPath (VStr "current_cat.jpg");
                StImage image;
                St st_subheader TxtTaglineHeader;
                St st_write (TxtTagline (quoted tagline))])) /\
  (forall e,
     path_exists f t' (VStr "current_cat.jpg") = true ->
     Image_open_path f t' (VStr "current_cat.jpg") = Raise e ->
     streamlit_app.generate_cat_content (Some key) f t u
       = (Returns tt, t',
          u ++ [StSpinner; St st_success TxtGenerated;
                OsPathExists (VStr "current_cat.jpg");
                ImageOpenPath (VStr "current_cat.jpg");
                St st_error (TxtUnexpected (CoreExn e));
                Console (ConGenerateError (CoreExn e))])).
Proof.
  intros Hkey Hrun.
  destruct (run_full_pipeline_returns (generator_for key) (core f) t)
    as (result & t'' & Hrun' & Hresult).
  rewrite Hrun in Hrun'. injection Hrun' as <- <-.
  destruct (generate_cat_content_with_key f t u key _ t' Hkey Hrun Hresult)
    as [(d & c & Heq & _ & _ & Hshow)|(msg & Heq & _)].
  2: by apply complete_result_not_error in Heq.
  apply complete_result_inj in Heq as (_ & <- & <-).
  rewrite Hshow. unfold shown_results. repeat split.
  - by intros ->.
  - by intros image -> ->.
  - by intros e -> ->.
Qed.

Lemma successful_run_is_displayed_witness :
  snd (streamlit_app.generate_cat_content (Some "sk-test") frontend_unreadable [] [])
    = [] ++ [StSpinner; St st_success TxtGenerated;
             OsPathExists (VStr "current_cat.jpg");
             ImageOpenPath (VStr "current_cat.jpg");
             St st_error (TxtUnexpected (CoreExn UnidentifiedImageError));
             Console (ConGenerateError (CoreExn UnidentifiedImageError))].
Proof.
  rewrite (proj2 (proj2 (successful_run_is_displayed frontend_unreadable []
             (snd (run_full_pipeline (generator_for "sk-test") world_happy []))
             [] "sk-test" tabby "Yawn and order!" ltac:(discriminate) eq_refl))
             UnidentifiedImageError eq_refl eq_refl).
  reflexivity.
Defined.

Example missing_file_still_shows_the_tagline :
  snd (streamlit_app.generate_cat_content (Some "sk-test") frontend_missing_file [] [])
    = [StSpinner; St st_success TxtGenerated;
       OsPathExists (VStr "current_cat.jpg");
       St st_subheader TxtTaglineHeader;
       St st_write (TxtTagline
         (String DQUOTE "Yawn and order!" +:+ String DQUOTE EmptyString))].
Proof. reflexivity. Qed.

(** X18. Called without a usable key while the environment holds none
    either, [generate_cat_content] shows the [ValueError] of [__init__] as an
    "Unexpected error" banner, prints it to the console, and leaves the
    trace of the pipeline as it was. *)
Theorem generate_cat_content_without_any_key
    (f : Frontend) (t : trace) (u : list ui_call) (api_key : option string) :
  truthy_opt truthy_str api_key = false ->
  truthy_opt truthy_str (environ (core f) !! "OPENAI_API_KEY") = false ->
  streamlit_app.generate_cat_content api_key f t u
    = (Returns tt, t,
       u ++ [StSpinner;
             St st_error (TxtUnexpected (CoreExn (ValueError missing_key_message)));
             Console (ConGenerateError (CoreExn (ValueError missing_key_message)))]).
Proof.
  intros Hkey Henv. apply generate_cat_content_init_raises.
  rewrite __init___fallback by done.
  destruct (environ (core f) !! "OPENAI_API_KEY") as [v|]; [|done].
  simpl in Henv. by rewrite Henv.
Qed.

Lemma generate_cat_content_without_any_key_witness :
  streamlit_app.generate_cat_content None (frontend_of world_happy) [] []
    = (Returns tt, [],
       [] ++ [StSpinner;
              St st_error (TxtUnexpected (CoreExn (ValueError missing_key_message)));
              Console (ConGenerateError (CoreExn (ValueError missing_key_message)))]).
Proof.
  apply (generate_cat_content_without_any_key (frontend_of world_happy) [] [] None);
    reflexivity.
Defined.

(** X19. [generate_cat_content] returns for every key and every world.
    It never shows "No tagline found in results!", never falls back to
    "Unknown error occurred", and never reports a [KeyError]: a result read
    as a success always holds a non-empty tagline and the keys it is
    subscripted with. *)
Theorem generate_cat_content_always_returns
    (f : Frontend) (t : trace) (u : list ui_call) (api_key : option string) :
  exists t' new,
    streamlit_app.generate_cat_content api_key f t u = (Returns tt, t', u ++ new) /\
    ~ In (St st_error TxtNoTagline) new /\
    ~ In (St st_error (TxtPipelineError (VStr "Unknown error occurred"))) new /\
    (forall key, ~ In (St st_error (TxtUnexpected (KeyError key))) new).
Proof.
  destruct (__init__ api_key (core f) t) as [[self|e] t0] eqn:Hinit.
  - apply __init___returns in Hinit as Hself. destruct Hself as (-> & key & Hkey & -> & _).
    destruct (run_full_pipeline_returns (generator_for key) (core f) t)
      as (result & t' & Hrun & Hresult).
    destruct (generate_cat_content_after_init f t u api_key key result t' Hinit Hrun Hresult)
      as [(d & c & _ & _ & _ & Hshow)|(msg & _ & Hmsg & Hshow)].
    + exists t'. eexists. split; [exact Hshow|].
      unfold shown_results.
      destruct (path_exists f t' (VStr "current_cat.jpg"));
        [destruct (Image_open_path f t' (VStr "current_cat.jpg"))|];
        (split; [|split; [|intros key']]); simpl; intros Hin;
        repeat (destruct Hin as [Hin|Hin]; [discriminate Hin|]); done.
    + exists t'. eexists. split; [exact Hshow|].
      (split; [|split; [|intros key']]); simpl; intros Hin;
        repeat (destruct Hin as [Hin|Hin]; [try discriminate Hin|]); try done.
      injection Hin as ->. simpl in Hmsg.
      repeat (destruct Hmsg as [Hmsg|Hmsg]; [discriminate Hmsg|]). done.
  - apply __init___raises in Hinit as Hraise. destruct Hraise as [-> ->].
    exists t. eexists. split; [by apply generate_cat_content_init_raises|].
    (split; [|split; [|intros key']]); simpl; intros Hin;
      repeat (destruct Hin as [Hin|Hin]; [discriminate Hin|]); done.
Qed.


